(** * Migration scripts: React 17 -> 18 and Node 20 -> 22

    A shallow embedding of [src/2025/migrate-to-react-18.js] and of the
    Node 22 migration script, with the properties of the peer-dependency
    compatibility gate, of the manifest updates and of the exit codes.

    JavaScript objects that hold dependency groups are finite maps from
    package names to version ranges; the order in which an object lists its
    keys is not represented, and every property stated below of a loop over
    the keys of an object is independent of that order (the lemmas that
    compute such a loop in the order of the map only serve the proofs).

    The scripts' effects (console output, child processes, prompts, file
    writes, [process.exit], exceptions, a prompt that is never answered) are
    threaded through a state-and-exit monad that records a trace. *)

From Stdlib Require Import String Ascii ZArith List Lia.
From stdpp Require Import gmap strings list fin_maps pretty.

Open Scope string_scope.

(** * JavaScript strings *)

(** [hay.includes(needle)], which is also the test of an unanchored regular
    expression made of literal characters only, such as [/17\./] or [/18/]. *)
Fixpoint includes (needle hay : string) : bool :=
  String.prefix needle hay
  || match hay with
     | EmptyString => false
     | String _ rest => includes needle rest
     end.

(** [s.startsWith(p)], and the test of an anchored literal such as [/^18\./]. *)
Definition startsWith (s p : string) : bool := String.prefix p s.

(** [array.includes(x)] on an array of strings. *)
Definition arrayIncludes (l : list string) (x : string) : bool :=
  existsb (String.eqb x) l.

(** Truthiness of [obj[key]] when the values are strings: [undefined] and
    the empty string are falsy. *)
Definition truthy (v : option string) : bool :=
  match v with
  | Some (String _ _) => true
  | _ => false
  end.

(** How the [i] flag of a regular expression without the [u] flag compares
    a character of the input with an ASCII letter of the pattern: the two
    ASCII cases of a letter are the same, and a code point outside ASCII is
    never the same as an ASCII letter (the canonicalisation of the flag
    leaves a code unit above 127 alone when its upper case is below 128).
    Code points outside ASCII are encoded on bytes above 127, which are left
    alone. This is not [String.prototype.toLowerCase], which the runtime
    provides (see [Env]). *)
Definition lowerAscii (c : ascii) : ascii :=
  let n := nat_of_ascii c in
  if (65 <=? n)%nat && (n <=? 90)%nat then ascii_of_nat (n + 32) else c.

Fixpoint foldCase (s : string) : string :=
  match s with
  | EmptyString => EmptyString
  | String c rest => String (lowerAscii c) (foldCase rest)
  end.

Definition bytes (l : list nat) : string :=
  string_of_list_ascii (map ascii_of_nat l).

(** The UTF-8 encodings of the code points that ECMAScript calls WhiteSpace
    or LineTerminator: what [trim] strips and what [\s] matches. *)
Definition whiteSpace : list string :=
  map bytes
    [ [9]; [10]; [11]; [12]; [13]; [32];
      [194; 160]; [225; 154; 128];
      [226; 128; 128]; [226; 128; 129]; [226; 128; 130]; [226; 128; 131];
      [226; 128; 132]; [226; 128; 133]; [226; 128; 134]; [226; 128; 135];
      [226; 128; 136]; [226; 128; 137]; [226; 128; 138];
      [226; 128; 168]; [226; 128; 169]; [226; 128; 175];
      [226; 129; 159]; [227; 128; 128]; [239; 187; 191] ].

Fixpoint dropString (n : nat) (s : string) : string :=
  match n, s with
  | S n', String _ rest => dropString n' rest
  | _, _ => s
  end.

(** Removes one white-space code point from the front, if there is one. *)
Definition dropSpace (s : string) : option string :=
  match find (fun ws => String.prefix ws s) whiteSpace with
  | Some ws => Some (dropString (String.length ws) s)
  | None => None
  end.

Fixpoint trimStartFuel (fuel : nat) (s : string) : string :=
  match fuel with
  | O => s
  | S fuel' =>
      match dropSpace s with
      | Some rest => trimStartFuel fuel' rest
      | None => s
      end
  end.

Definition trimStart (s : string) : string := trimStartFuel (String.length s) s.

Definition reverse_string (s : string) : string :=
  string_of_list_ascii (rev (list_ascii_of_string s)).

Definition dropSpaceEnd (r : string) : option string :=
  match find (fun ws => String.prefix (reverse_string ws) r) whiteSpace with
  | Some ws => Some (dropString (String.length ws) r)
  | None => None
  end.

Fixpoint trimEndFuel (fuel : nat) (r : string) : string :=
  match fuel with
  | O => r
  | S fuel' =>
      match dropSpaceEnd r with
      | Some rest => trimEndFuel fuel' rest
      | None => r
      end
  end.

Definition trimEnd (s : string) : string :=
  reverse_string (trimEndFuel (String.length s) (reverse_string s)).

(** [s.trim()] *)
Definition trim (s : string) : string := trimEnd (trimStart s).

(** * Manifests and the project directory *)

(** A parsed [package.json]: the three dependency groups and [engines] are
    the objects the scripts look into, each absent or a map from names to
    strings; every other top-level field is carried along untouched. *)
Record PackageJson := mkPackageJson {
  dependencies : option (gmap string string);
  devDependencies : option (gmap string string);
  peerDependencies : option (gmap string string);
  engines : option (gmap string string);
  otherFields : list (string * string)
}.

(** What reading and parsing a file gives: [Missing] when [fs.existsSync] is
    false, [Unreadable] when the file is there but [fs.readFileSync],
    [JSON.parse] or the first property access on the result throws. *)
Inductive File (A : Type) : Type :=
| Missing
| Unreadable
| Parsed (content : A).
Arguments Missing {A}.
Arguments Unreadable {A}.
Arguments Parsed {A} content.

#[warnings="-register-all"]
Inductive Node : Type :=
| TextFile (text : string)
| Folder (items : list (string * Node)).

(** The working directory: its [package.json], the manifests under
    [node_modules/<name>/package.json], and its other entries. *)
Record FS := mkFS {
  packageJson : File PackageJson;
  node_modules : gmap string (option PackageJson);
  entries : list (string * Node)
}.

(** [node_modules/<dep>/package.json] *)
Definition installed (fs : FS) (dep : string) : File PackageJson :=
  match node_modules fs !! dep with
  | None => Missing
  | Some None => Unreadable
  | Some (Some depPkg) => Parsed depPkg
  end.

(** * Effects *)

Inductive Level := Info | Success | Warn | Error.

Inductive Event :=
| EvLog (level : Level) (msg : string)
| EvBox (level : Level) (text : string)
| EvExec (command : string) (ok : bool)
| EvWriteManifest (data : PackageJson)
| EvWriteFile (path : list string) (text : string)
| EvQuestion (query : string)
| EvAnswer (line : string).

(** What the scripts take from outside: the outcome of each child process
    (whether it exits with zero, and the file system it leaves); the line
    that reaches the callback of the [n]-th question, or [None] when no line
    ever does because the input is at its end; [process.version]; the
    [package.json] that [require] finds next to the script; and the
    [String.prototype.toLowerCase] of the runtime, whose Unicode case
    mapping is not reproduced here, so that what is proved holds for any. *)
Record Env := mkEnv {
  exec : string -> FS -> bool * FS;
  operator : nat -> option string;
  processVersion : N * N * N;
  moduleManifest : File PackageJson;
  toLowerCase : string -> string
}.

Record World := mkWorld {
  fs : FS;
  asked : nat;
  trace : list Event
}.

(** How a piece of the script ends: it returns, it calls [process.exit], it
    throws, or it is left waiting for a promise that is never settled
    ([Pending]): nothing after the [await] runs, no handler is entered, and
    the process ends once nothing else keeps it alive. *)
Inductive Outcome (A : Type) : Type :=
| Ret (a : A)
| Exit (code : Z)
| Throw
| Pending.
Arguments Ret {A} a.
Arguments Exit {A} code.
Arguments Throw {A}.
Arguments Pending {A}.

Definition M (A : Type) : Type := World -> Outcome A * World.

Definition ret {A} (a : A) : M A := fun w => (Ret a, w).

Definition bind {A B} (m : M A) (k : A -> M B) : M B :=
  fun w =>
    match m w with
    | (Ret a, w') => k a w'
    | (Exit code, w') => (Exit code, w')
    | (Throw, w') => (Throw, w')
    | (Pending, w') => (Pending, w')
    end.

Declare Scope js_scope.
Delimit Scope js_scope with js.
Notation "x <- m ;; k" := (bind m (fun x => k))
  (at level 100, m at next level, right associativity) : js_scope.
Notation "m ;; k" := (bind m (fun _ => k))
  (at level 100, right associativity) : js_scope.
Open Scope js_scope.

(** [process.exit(code)] *)
Definition exit {A} (code : Z) : M A := fun w => (Exit code, w).

Definition throw {A} : M A := fun w => (Throw, w).

(** [try { m } catch { handler }]: [process.exit] is not an exception, and
    neither is an [await] that never resumes. *)
Definition try_catch {A} (m handler : M A) : M A :=
  fun w =>
    match m w with
    | (Throw, w') => handler w'
    | r => r
    end.

Definition emit (e : Event) : M unit :=
  fun w => (Ret tt, mkWorld (fs w) (asked w) (trace w ++ [e])).

Definition log (level : Level) (msg : string) : M unit := emit (EvLog level msg).

Definition getFS : M FS := fun w => (Ret (fs w), w).

Definition putFS (fs' : FS) : M unit :=
  fun w => (Ret tt, mkWorld fs' (asked w) (trace w)).

Fixpoint foldM {A B} (f : B -> A -> M B) (l : list A) (b : B) : M B :=
  match l with
  | [] => ret b
  | x :: rest => b' <- f b x ;; foldM f rest b'
  end.

Definition forEach {A} (l : list A) (f : A -> M unit) : M unit :=
  foldM (fun _ x => f x) l tt.

(** The exit code of the process: an uncaught exception or unhandled
    rejection ends it with code 1; a top-level promise that is still pending
    when the input has ended and nothing else is scheduled lets the process
    end on its own, with code 0. *)
Definition exitCode {A} (o : Outcome A) : Z :=
  match o with
  | Ret _ => 0
  | Exit code => code
  | Throw => 1
  | Pending => 0
  end.

Definition start (fs0 : FS) : World := mkWorld fs0 0 [].

(** [child_process.execSync(command, ...)]: throws when the child fails. *)
Definition execSync (env : Env) (command : string) : M unit :=
  fun w =>
    let '(ok, fs') := exec env command (fs w) in
    let w' := mkWorld fs' (asked w) (trace w ++ [EvExec command ok]) in
    if ok then (Ret tt, w') else (Throw, w').

(** [await new Promise(resolve => rl.question(query, answer => ...))]: the
    query is written, and the promise is settled from the callback, which is
    called with the operator's line if one arrives and never otherwise.
    [asked] counts the questions put so far. *)
Definition question (env : Env) (query : string) : M string :=
  fun w =>
    match operator env (asked w) with
    | Some line =>
        (Ret line,
         mkWorld (fs w) (S (asked w)) (trace w ++ [EvQuestion query; EvAnswer line]))
    | None =>
        (Pending, mkWorld (fs w) (S (asked w)) (trace w ++ [EvQuestion query]))
    end.

(** [Object.keys(obj)], up to the order of the keys: they are listed here
    in the order of the map, each once, and not in the order in which the
    object got them. *)
Definition objectKeys (obj : gmap string string) : list string :=
  (map_to_list obj).*1.

(** [{ ...a, ...b }]: the entries of [b] win; spreading [undefined] adds
    nothing. *)
Definition spread (a b : option (gmap string string)) : gmap string string :=
  default ∅ b ∪ default ∅ a.

Definition doubleQuote : string := String (ascii_of_nat 34) EmptyString.

Definition newline : string := String (ascii_of_nat 10) EmptyString.

(** * The React 18 migration script *)

Module React18.

Definition TARGET_VERSIONS : list (string * string) :=
  [ ("react", "^18.3.1");
    ("react-dom", "^18.3.1");
    ("@testing-library/react", "^14.0.0");
    ("react-test-renderer", "^18.3.1") ].

(** Ignore warnings for these packages if explicitly set to React 18
    compatible version *)
Definition ignoreWarningsFor : list string := [ "react-test-renderer" ].

Record Issue := mkIssue {
  issue_name : string;
  issue_peer : string;
  issue_required : string
}.

Definition setDeps (pkg : PackageJson) (deps devDeps peerDeps : option (gmap string string))
  : PackageJson :=
  mkPackageJson deps devDeps peerDeps (engines pkg) (otherFields pkg).

(** The value [deps] holds after [updateDeps(deps, name, version)]. *)
Definition updatedDeps (deps : option (gmap string string)) (name version : string)
  : option (gmap string string) :=
  match deps with
  | Some d => if truthy (d !! name) then Some (<[name := version]> d) else deps
  | None => None
  end.

(** The test [/17\./.test(range) && !/18/.test(range)]. *)
Definition requiresReact17 (range : string) : bool :=
  includes "17." range && negb (includes "18" range).

(** [for (const key of keys) { if (peer[key]) { if (...) issues.push(...) } }] *)
Definition checkPeers (dep : string) (peer : gmap string string)
    (keys : list string) (issues : list Issue) : list Issue :=
  fold_left
    (fun issues key =>
       match peer !! key with
       | Some range =>
           if truthy (Some range) && requiresReact17 range
           then (issues ++ [mkIssue dep key range])%list
           else issues
       | None => issues
       end)
    keys issues.

(** [deps && deps[dep] && /^18\./.test(deps[dep])] *)
Definition declares18 (deps : option (gmap string string)) (dep : string) : bool :=
  match deps with
  | Some d =>
      match d !! dep with
      | Some range => truthy (Some range) && startsWith range "18."
      | None => false
      end
  | None => false
  end.

(** The condition under which the second gate skips a dependency. *)
Definition ignored (pkg : PackageJson) (dep : string) : bool :=
  arrayIncludes ignoreWarningsFor dep
  && (declares18 (dependencies pkg) dep || declares18 (devDependencies pkg) dep).

Definition core : list string := [ "react"; "react-dom"; "@testing-library/react" ].

(** [/^y(es)?$/i.test(answer.trim())] *)
Definition affirmative (answer : string) : bool :=
  let t := foldCase (trim answer) in
  String.eqb t "y" || String.eqb t "yes".

Definition promptText : string :=
  "NOTE: This project is not ready for React 18 until all leaf dependencies (the lowest-level packages in your dependency tree) are updated to support React 18. Please work on above library before."
  ++ newline
  ++ "Some packages may not support React 18.3.1. Continue migration? (y/N): ".

Section Script.
Variable env : Env.

(** A framed line, in blue like [log.info]. *)
Definition stepBox (title : string) : M unit := emit (EvBox Info title).

Definition ensureNCU : M unit :=
  log Info "Checking if ncu (npm-check-updates) is installed..." ;;
  try_catch
    (execSync env "ncu -v" ;;
     log Success "ncu is installed.")
    (log Warn "ncu not found. Installing globally..." ;;
     try_catch
       (execSync env "npm install -g npm-check-updates" ;;
        log Success "ncu installed globally.")
       (log Error "Failed to install npm-check-updates globally." ;;
        exit 1)).

Definition loadPackageJson : M PackageJson :=
  fs0 <- getFS ;;
  match packageJson fs0 with
  | Missing =>
      log Error "package.json not found in current directory." ;;
      exit 1
  | Unreadable => throw
  | Parsed data => ret data
  end.

Definition savePackageJson (data : PackageJson) : M unit :=
  fs0 <- getFS ;;
  putFS (mkFS (Parsed data) (node_modules fs0) (entries fs0)) ;;
  emit (EvWriteManifest data) ;;
  log Success "package.json updated.".

Definition updateDeps (deps : option (gmap string string)) (name version : string)
  : M (option (gmap string string)) :=
  match deps with
  | Some d =>
      if truthy (d !! name)
      then log Info ("Updated " ++ name ++ " → " ++ version) ;;
           ret (Some (<[name := version]> d))
      else ret deps
  | None => ret None
  end.

Definition updateRplanDepsWithNCU : M unit :=
  log Info "Updating @rplan/* dependencies using ncu..." ;;
  try_catch
    (execSync env ("ncu " ++ doubleQuote ++ "/@rplan\/.*/" ++ doubleQuote ++ " -u") ;;
     log Success "@rplan/* dependencies updated to latest.")
    (log Error "Failed to update @rplan/* dependencies using ncu.").

Definition updateCoreReactDeps : M unit :=
  pkg <- loadPackageJson ;;
  pkg' <- foldM
            (fun pkg '(name, version) =>
               deps <- updateDeps (dependencies pkg) name version ;;
               devDeps <- updateDeps (devDependencies pkg) name version ;;
               peerDeps <- updateDeps (peerDependencies pkg) name version ;;
               ret (setDeps pkg deps devDeps peerDeps))
            TARGET_VERSIONS pkg ;;
  savePackageJson pkg'.

Definition syncRplanPeerDepsToInstalled : M unit :=
  pkg <- loadPackageJson ;;
  let allDeps := spread (dependencies pkg) (devDependencies pkg) in
  peerDeps <- foldM
                (fun (peerDeps : gmap string string) dep =>
                   if startsWith dep "@rplan/" && truthy (peerDeps !! dep)
                   then
                     let version := default EmptyString (allDeps !! dep) in
                     log Info ("Synced peerDependency " ++ dep ++ " → " ++ version) ;;
                     ret (<[dep := version]> peerDeps)
                   else ret peerDeps)
                (objectKeys allDeps) (default ∅ (peerDependencies pkg)) ;;
  savePackageJson
    (setDeps pkg (dependencies pkg) (devDependencies pkg) (Some peerDeps)).

(** The body of the [for (const dep of ...)] loop from its [try] on, the
    same text in both gates up to the list of peer names. Nothing is pushed
    before the last statement that can throw, so the handler sees the issues
    it started with. *)
Definition checkInstalled (keys : list string) (issues : list Issue) (dep : string)
  : M (list Issue) :=
  try_catch
    (fs0 <- getFS ;;
     match installed fs0 dep with
     | Missing => ret issues
     | Unreadable => throw
     | Parsed depPkg =>
         ret (checkPeers dep (default ∅ (peerDependencies depPkg)) keys issues)
     end)
    (log Warn ("Could not check peerDependencies for " ++ dep) ;;
     ret issues).

Definition logIssue (i : Issue) : M unit :=
  log Warn ("  " ++ issue_name i ++ ": peerDependency " ++ issue_peer i
            ++ "@" ++ issue_required i).

Definition promptContinue : M bool :=
  answer <- question env promptText ;;
  ret (affirmative answer).

Definition rplanDeps (pkg : PackageJson) : list string :=
  filter (fun name => Is_true (startsWith name "@rplan/"))
         (objectKeys (spread (dependencies pkg) (devDependencies pkg))).

(** The [for (const dep of rplanDeps)] loop and the [issues] it leaves. *)
Definition rplanIssues (pkg : PackageJson) : M (list Issue) :=
  foldM (checkInstalled [ "react"; "react-dom" ]) (rplanDeps pkg) [].

Definition checkRplanPeerDepsForReact17Prompt : M unit :=
  pkg <- loadPackageJson ;;
  issues <- rplanIssues pkg ;;
  match issues with
  | _ :: _ =>
      log Warn "Some @rplan/* packages still require React 17 and may cause peer dependency issues:" ;;
      forEach issues logIssue ;;
      cont <- promptContinue ;;
      if negb cont
      then log Error "Aborting migration due to incompatible @rplan/* peer dependencies." ;;
           exit 1
      else log Warn "Proceeding with forced install despite @rplan/* peer dependency issues."
  | [] =>
      log Success "All @rplan/* packages support React 18 in their peerDependencies."
  end.

Definition allDeps (pkg : PackageJson) : list string :=
  filter (fun name => Is_true (negb (startsWith name "@rplan/") && negb (arrayIncludes core name)))
         (objectKeys (spread (dependencies pkg) (devDependencies pkg))).

(** The [for (const dep of allDeps)] loop and the [issues] it leaves. *)
Definition nonRplanIssues (pkg : PackageJson) : M (list Issue) :=
  foldM
    (fun issues dep =>
       if ignored pkg dep then ret issues
       else checkInstalled core issues dep)
    (allDeps pkg) [].

Definition checkNonRplanPeerDepsForReact17Prompt : M unit :=
  pkg <- loadPackageJson ;;
  issues <- nonRplanIssues pkg ;;
  match issues with
  | _ :: _ =>
      log Warn "The following package(s) need to be updated to a version that supports React 18. Please upgrade them in the next step to ensure compatibility." ;;
      forEach issues logIssue ;;
      cont <- promptContinue ;;
      if negb cont
      then log Error "Aborting migration due to incompatible peer dependencies." ;;
           exit 1
      else log Warn "Proceeding with forced install despite peer dependency issues."
  | [] =>
      log Success "All non-@rplan dependencies support React 18 in their peerDependencies."
  end.

(** The closing line is framed, in green like [log.success]. *)
Definition printMigrationSuccess : M unit :=
  log Success "🎉 React 18 migration complete. All core and checked dependencies are now compatible or force-installed." ;;
  emit (EvBox Success "No commit will be made by this script. Please review the changes and commit them manually.").

Definition migrate : M unit :=
  stepBox "Starting React migration script" ;;
  log Info "🔁 Starting React migration script..." ;;
  stepBox "Check ncu (npm-check-updates)" ;;
  ensureNCU ;;
  stepBox "Update core React dependencies" ;;
  updateCoreReactDeps ;;
  stepBox "Update @rplan/* dependencies" ;;
  updateRplanDepsWithNCU ;;
  stepBox "Sync @rplan/* peerDependencies to installed versions" ;;
  syncRplanPeerDepsToInstalled ;;
  stepBox "Check @rplan/* peerDependencies for React 17" ;;
  checkRplanPeerDepsForReact17Prompt ;;
  stepBox "Check non-@rplan peerDependencies for React 17" ;;
  checkNonRplanPeerDepsForReact17Prompt ;;
  stepBox "Install dependencies (npm install)" ;;
  log Info "Running npm install..." ;;
  try_catch
    (execSync env "npm install" ;;
     stepBox "Migration Complete" ;;
     printMigrationSuccess)
    (log Error "npm install failed." ;;
     exit 1).

End Script.
End React18.

(** * The Node 22 migration script *)

Module Node22.

Definition NODE_VERSION : string := "22".
Definition DOCKER_IMAGE_TAG : string := "22".
Definition GITHUB_ACTIONS_DIR : list string := [ ".github"; "workflows" ].
Definition DOCKERFILE_DIR : list string := [].
Definition IGNORED_FOLDERS : list string :=
  [ "node_modules"; ".git"; ".cache"; "dist"; "build" ].

(** Paths are lists of segments below the working directory, which is what
    [path.join] gives once it has normalised the leading [./]. *)
Definition renderPath (p : list string) : string := String.concat "/" p.

Definition endsWith (s suffix : string) : bool :=
  String.prefix (reverse_string suffix) (reverse_string s).

Fixpoint lookupEntry (items : list (string * Node)) (name : string) : option Node :=
  match items with
  | [] => None
  | (i, n) :: rest => if String.eqb i name then Some n else lookupEntry rest name
  end.

(** [fs.readdirSync(dir)] with the [lstatSync] of each item; [None] when
    the call throws because [dir] is not a directory. *)
Fixpoint readdirSync (items : list (string * Node)) (dir : list string)
  : option (list (string * Node)) :=
  match dir with
  | [] => Some items
  | d :: rest =>
      match lookupEntry items d with
      | Some (Folder sub) => readdirSync sub rest
      | _ => None
      end
  end.

Fixpoint readFile (items : list (string * Node)) (p : list string) : option string :=
  match p with
  | [] => None
  | [ name ] =>
      match lookupEntry items name with
      | Some (TextFile text) => Some text
      | _ => None
      end
  | d :: rest =>
      match lookupEntry items d with
      | Some (Folder sub) => readFile sub rest
      | _ => None
      end
  end.

Fixpoint writeFile (items : list (string * Node)) (p : list string) (text : string)
  : list (string * Node) :=
  match p with
  | [] => items
  | [ name ] =>
      map (fun '(i, n) => if String.eqb i name then (i, TextFile text) else (i, n)) items
  | d :: rest =>
      map (fun '(i, n) =>
             if String.eqb i d
             then match n with
                  | Folder sub => (i, Folder (writeFile sub rest text))
                  | TextFile _ => (i, n)
                  end
             else (i, n))
          items
  end.

(** The recursion shared by [findDockerfiles] and [getYamlFilesInDir]: one
    [item] of [dir], kept when it is a file that passes the test, searched
    when it is a folder that is not ignored. *)
Fixpoint scan (keep : string -> string -> bool) (dir : list string) (item : string)
    (n : Node) {struct n} : list (list string) :=
  let fullPath := (dir ++ [ item ])%list in
  match n with
  | Folder items =>
      if arrayIncludes IGNORED_FOLDERS item then []
      else flat_map (fun '(i, n') => scan keep fullPath i n') items
  | TextFile _ =>
      if keep item (renderPath fullPath) then [ fullPath ] else []
  end.

(** ** The three global replacements *)

Fixpoint replaceAllFuel (matchAt : string -> option string) (replacement : string)
    (fuel : nat) (s : string) : string :=
  match fuel with
  | O => s
  | S fuel' =>
      match matchAt s with
      | Some rest => replacement ++ replaceAllFuel matchAt replacement fuel' rest
      | None =>
          match s with
          | EmptyString => EmptyString
          | String c rest => String c (replaceAllFuel matchAt replacement fuel' rest)
          end
      end
  end.

(** [s.replace(/.../g, replacement)] for a pattern that never matches the
    empty string; [matchAt] gives what follows a match at the very start. *)
Definition replaceAll (matchAt : string -> option string) (replacement s : string)
  : string :=
  replaceAllFuel matchAt replacement (S (String.length s)) s.

Definition literal (lit s : string) : option string :=
  if String.prefix lit s then Some (dropString (String.length lit) s) else None.

(** [/node_version:\s*\[20\]/] *)
Definition matchNodeVersion (s : string) : option string :=
  match literal "node_version:" s with
  | Some rest => literal "[20]" (trimStart rest)
  | None => None
  end.

Definition wordChar (c : ascii) : bool :=
  let n := nat_of_ascii c in
  ((48 <=? n) && (n <=? 57) || (65 <=? n) && (n <=? 90)
   || (97 <=? n) && (n <=? 122) || (n =? 95))%nat.

Fixpoint dropWord (s : string) : string :=
  match s with
  | String c rest => if wordChar c then dropWord rest else s
  | EmptyString => s
  end.

(** The greedy optional group at the end of the two image patterns: a dash
    followed by as many word characters as there are. *)
Definition optionalSuffix (s : string) : string :=
  match s with
  | String c rest => if Ascii.eqb c "-" then dropWord rest else s
  | EmptyString => s
  end.

(** [node:20], then the optional group. *)
Definition matchNodeImage (s : string) : option string :=
  option_map optionalSuffix (literal "node:20" s).

(** The unescaped [.] of a pattern: one UTF-16 code unit other than a line
    terminator, that is one code point of the basic plane on well-formed
    UTF-8 text. *)
Definition anyChar (s : string) : option string :=
  match s with
  | EmptyString => None
  | String c _ =>
      let n := nat_of_ascii c in
      if (String.prefix (bytes [10]) s || String.prefix (bytes [13]) s
          || String.prefix (bytes [226; 128; 168]) s
          || String.prefix (bytes [226; 128; 169]) s)
      then None
      else if (n <? 128)%nat then Some (dropString 1 s)
      else if (n <? 224)%nat then Some (dropString 2 s)
      else if (n <? 240)%nat then Some (dropString 3 s)
      else None
  end.

Definition baseImage : string :=
  "europe-west3-docker.pkg.dev/allex-artifacts/allex-artifacts-docker/allex-nodejs-base:".

(** The base image at tag 20, then the optional group; the two dots of the
    host name are not escaped in the pattern. *)
Definition matchBaseImage (s : string) : option string :=
  r1 ← literal "europe-west3-docker" s;
  r2 ← anyChar r1;
  r3 ← literal "pkg" r2;
  r4 ← anyChar r3;
  r5 ← literal "dev/allex-artifacts/allex-artifacts-docker/allex-nodejs-base:20" r4;
  Some (optionalSuffix r5).

Definition updateWorkflow (workflowYaml : string) : string :=
  replaceAll matchNodeVersion ("node_version: [" ++ NODE_VERSION ++ "]") workflowYaml.

Definition updateDockerfile (dockerfileContent : string) : string :=
  let updatedContent :=
    replaceAll matchNodeImage (baseImage ++ DOCKER_IMAGE_TAG) dockerfileContent in
  replaceAll matchBaseImage (baseImage ++ DOCKER_IMAGE_TAG) updatedContent.

Definition versionString (v : N * N * N) : string :=
  let '(major, minor, patch) := v in
  "v" ++ pretty major ++ "." ++ pretty minor ++ "." ++ pretty patch.

Section Script.
Variable env : Env.

Definition printSuccess (message : string) : M unit := log Success message.
Definition printError (message : string) : M unit := log Error message.
Definition printInfo (message : string) : M unit := log Info message.

(** [item.toLowerCase() === 'dockerfile'] *)
Definition isDockerfile (item fullPath : string) : bool :=
  String.eqb (toLowerCase env item) "dockerfile".

(** [fullPath.toLowerCase().endsWith('.yml')
    || fullPath.toLowerCase().endsWith('.yaml')] *)
Definition isYaml (item fullPath : string) : bool :=
  endsWith (toLowerCase env fullPath) ".yml" || endsWith (toLowerCase env fullPath) ".yaml".

Definition runCommand (command : string) : M unit :=
  try_catch
    (execSync env command)
    (printError ("Command failed: " ++ command) ;;
     exit 1).

(** [process.version] is [v<major>.<minor>.<patch>], so the [parseInt] of
    its first component without the [v] is the major number. *)
Definition verifyNodeCompatibility : M unit :=
  let currentNodeVersion := versionString (processVersion env) in
  let currentMajorVersion := (processVersion env).1.1 in
  if (currentMajorVersion <? 22)%N
  then printError ("Error: Node.js version is too low. Expected version >="
                   ++ NODE_VERSION ++ ", but found " ++ currentNodeVersion ++ ".") ;;
       exit 1
  else printInfo ("Node.js version " ++ currentNodeVersion ++ " is compatible.").

(** [fs.existsSync] looks in the working directory, [require] next to the
    script. *)
Definition updateNodeVersionInPackageJson : M unit :=
  fs0 <- getFS ;;
  match packageJson fs0 with
  | Missing => printError "package.json not found."
  | _ =>
      match moduleManifest env with
      | Parsed packageData =>
          let engines' := <["node" := ">=" ++ NODE_VERSION]> (default ∅ (engines packageData)) in
          let packageData' :=
            mkPackageJson (dependencies packageData) (devDependencies packageData)
                          (peerDependencies packageData) (Some engines')
                          (otherFields packageData) in
          putFS (mkFS (Parsed packageData') (node_modules fs0) (entries fs0)) ;;
          emit (EvWriteManifest packageData') ;;
          printSuccess ("Node.js version updated to >=" ++ NODE_VERSION ++ " in package.json")
      | _ => throw
      end
  end.

Definition readFileSync (p : list string) : M string :=
  fs0 <- getFS ;;
  match readFile (entries fs0) p with
  | Some text => ret text
  | None => throw
  end.

Definition writeFileSync (p : list string) (text : string) : M unit :=
  fs0 <- getFS ;;
  putFS (mkFS (packageJson fs0) (node_modules fs0) (writeFile (entries fs0) p text)) ;;
  emit (EvWriteFile p text).

Definition getYamlFilesInDir (dir : list string) : M (list (list string)) :=
  fs0 <- getFS ;;
  match readdirSync (entries fs0) dir with
  | Some items => ret (flat_map (fun '(i, n) => scan isYaml dir i n) items)
  | None => throw
  end.

Definition findDockerfiles (dir : list string) : M (list (list string)) :=
  fs0 <- getFS ;;
  match readdirSync (entries fs0) dir with
  | Some items => ret (flat_map (fun '(i, n) => scan isDockerfile dir i n) items)
  | None => throw
  end.

Definition updateNodeVersionInGitHubActions : M unit :=
  workflowFiles <- getYamlFilesInDir GITHUB_ACTIONS_DIR ;;
  match workflowFiles with
  | [] => printInfo "No GitHub Actions YAML files found. Skipping update."
  | _ :: _ =>
      forEach workflowFiles
        (fun workflowFile =>
           printInfo ("Checking workflow file: " ++ renderPath workflowFile) ;;
           workflowYaml <- readFileSync workflowFile ;;
           let updatedWorkflowYaml := updateWorkflow workflowYaml in
           if negb (String.eqb updatedWorkflowYaml workflowYaml)
           then writeFileSync workflowFile updatedWorkflowYaml ;;
                printSuccess ("Node.js version updated to " ++ NODE_VERSION ++ " in "
                              ++ renderPath workflowFile)
           else printInfo ("No 'node_version' change required in "
                           ++ renderPath workflowFile ++ "."))
  end.

Definition updateTypesNode : M unit :=
  printInfo "Checking @types/node installation..." ;;
  try_catch
    (fs0 <- getFS ;;
     match packageJson fs0 with
     | Parsed packageJson =>
         match devDependencies packageJson with
         | Some devDeps =>
             if truthy (devDeps !! "@types/node")
             then
               printInfo ("@types/node is installed. Current version: "
                          ++ default EmptyString (devDeps !! "@types/node")) ;;
               printInfo ("Updating @types/node to version " ++ NODE_VERSION ++ "...") ;;
               runCommand ("npm install --save-dev @types/node@" ++ NODE_VERSION) ;;
               printSuccess ("@types/node updated to version " ++ NODE_VERSION ++ ".")
             else printInfo "@types/node is not installed. Skipping update."
         | None => printInfo "@types/node is not installed. Skipping update."
         end
     | _ => throw
     end)
    (printError "Failed to check or update @types/node.").

Definition installDependencies : M unit :=
  printInfo "Installing dependencies..." ;;
  runCommand "npm install".

Definition promptUpdateRplan : M bool :=
  answer <- question env "Do you want to update the @rplan dependency using ncu? (yes/no): " ;;
  ret (String.eqb (toLowerCase env answer) "yes").

Definition updateRplanDependency : M unit :=
  update <- promptUpdateRplan ;;
  if (update : bool)
  then printInfo "Updating @rplan dependency..." ;;
       runCommand "npx npm-check-updates '/@rplan/' -u" ;;
       runCommand "npm install" ;;
       printSuccess "@rplan dependency updated successfully!"
  else printInfo "Skipping @rplan dependency update.".

(** The closing [rl.question] only prints its query: [runMigration] closes
    the interface right after this function returns, before any line can be
    read, so its callback never runs. *)
Definition checkAndUpdateDockerfiles : M unit :=
  dockerfiles <- findDockerfiles DOCKERFILE_DIR ;;
  match dockerfiles with
  | [] => printInfo "No Dockerfiles found in the project."
  | _ :: _ =>
      forEach dockerfiles
        (fun dockerfile =>
           printInfo ("Checking Dockerfile: " ++ renderPath dockerfile) ;;
           dockerfileContent <- readFileSync dockerfile ;;
           let updatedContent := updateDockerfile dockerfileContent in
           if negb (String.eqb updatedContent dockerfileContent)
           then writeFileSync dockerfile updatedContent ;;
                printSuccess ("Updated Node.js image in " ++ renderPath dockerfile
                              ++ " to " ++ DOCKER_IMAGE_TAG)
           else printInfo ("No changes needed in " ++ renderPath dockerfile ++ ".")) ;;
      emit (EvQuestion "Please check the Dockerfiles to verify the updates. Have you done that? (yes/no): ")
  end.

Definition completed : string :=
  "Migration to Node.js " ++ NODE_VERSION ++ " completed successfully!".

Definition runMigration : M unit :=
  verifyNodeCompatibility ;;
  updateNodeVersionInPackageJson ;;
  updateNodeVersionInGitHubActions ;;
  updateTypesNode ;;
  installDependencies ;;
  updateRplanDependency ;;
  checkAndUpdateDockerfiles ;;
  printSuccess completed.

End Script.
End Node22.

(** * The two gates side by side *)

Inductive Gate := Rplan | NonRplan.

(** The peer names a gate looks for. *)
Definition anchors (g : Gate) : list string :=
  match g with
  | Rplan => [ "react"; "react-dom" ]
  | NonRplan => React18.core
  end.

(** The dependencies a gate loops over. *)
Definition candidates (g : Gate) (pkg : PackageJson) : list string :=
  match g with
  | Rplan => React18.rplanDeps pkg
  | NonRplan => React18.allDeps pkg
  end.

(** Whether the loop of a gate skips [dep] before it looks at what is
    installed. *)
Definition exempt (g : Gate) (pkg : PackageJson) (dep : string) : bool :=
  match g with
  | Rplan => false
  | NonRplan => React18.ignored pkg dep
  end.

Definition issuesOf (g : Gate) : PackageJson -> M (list React18.Issue) :=
  match g with
  | Rplan => React18.rplanIssues
  | NonRplan => React18.nonRplanIssues
  end.

Definition check (env : Env) (g : Gate) : M unit :=
  match g with
  | Rplan => React18.checkRplanPeerDepsForReact17Prompt env
  | NonRplan => React18.checkNonRplanPeerDepsForReact17Prompt env
  end.

(** What one turn of a gate's loop leaves in [issues], as a function of the
    file system. *)
Definition inspect (keys : list string) (fs0 : FS) (issues : list React18.Issue)
    (dep : string) : list React18.Issue :=
  match installed fs0 dep with
  | Parsed depPkg =>
      React18.checkPeers dep (default ∅ (peerDependencies depPkg)) keys issues
  | _ => issues
  end.

Definition inspectAll (g : Gate) (pkg : PackageJson) (fs0 : FS) : list React18.Issue :=
  fold_left
    (fun issues dep => if exempt g pkg dep then issues else inspect (anchors g) fs0 issues dep)
    (candidates g pkg) [].

(** The entries of [issues] after the loop of a gate. *)
Definition flaggedBy (g : Gate) (pkg : PackageJson) (fs0 : FS) (i : React18.Issue) : Prop :=
  React18.issue_name i ∈ candidates g pkg
  /\ exempt g pkg (React18.issue_name i) = false
  /\ exists depPkg,
       installed fs0 (React18.issue_name i) = Parsed depPkg
       /\ React18.issue_peer i ∈ anchors g
       /\ default ∅ (peerDependencies depPkg) !! React18.issue_peer i
          = Some (React18.issue_required i)
       /\ React18.requiresReact17 (React18.issue_required i) = true.

(** [needle] occurs in [hay] as a run of consecutive characters. *)
Definition substring (needle hay : string) : Prop :=
  exists before after, hay = before ++ needle ++ after.

(** * Footprints of runs *)

(** The run only adds events that pass [p]. *)
Definition grows (p : Event -> bool) (w w' : World) : Prop :=
  exists t, trace w' = (trace w ++ t)%list /\ forallb p t = true.

Definition sameFS (w w' : World) : Prop := fs w' = fs w.

Definition sameAsked (w w' : World) : Prop := asked w' = asked w.

(** Every run of [m] relates the world it starts in to the one it leaves,
    and when it ends the process, it does so with code 1. *)
Definition preserves {A} (R : World -> World -> Prop) (m : M A) : Prop :=
  forall w, R w (m w).2 /\ forall code, (m w).1 = Exit code -> code = 1%Z.

Definition isWrite (e : Event) : bool :=
  match e with
  | EvWriteManifest _ | EvWriteFile _ _ => true
  | _ => false
  end.

Definition isPrompt (e : Event) : bool :=
  match e with
  | EvQuestion _ | EvAnswer _ => true
  | _ => false
  end.

Definition isStepBox (title : string) (e : Event) : bool :=
  match e with
  | EvBox Info t => String.eqb t title
  | _ => false
  end.

Definition isExec (command : string) (e : Event) : bool :=
  match e with
  | EvExec c _ => String.eqb c command
  | _ => false
  end.

Definition isFailedExec (e : Event) : bool :=
  match e with
  | EvExec _ false => true
  | _ => false
  end.

Definition isLog (level : Level) (msg : string) (e : Event) : bool :=
  match e with
  | EvLog Info m => match level with Info => String.eqb m msg | _ => false end
  | EvLog Success m => match level with Success => String.eqb m msg | _ => false end
  | EvLog Warn m => match level with Warn => String.eqb m msg | _ => false end
  | EvLog Error m => match level with Error => String.eqb m msg | _ => false end
  | _ => false
  end.

Definition isWarning (e : Event) : bool :=
  match e with
  | EvLog Warn _ => true
  | _ => false
  end.

Definition gate1Title : string := "Check @rplan/* peerDependencies for React 17".
Definition completeTitle : string := "Migration Complete".
Definition abortRplan : string :=
  "Aborting migration due to incompatible @rplan/* peer dependencies.".
Definition abortNonRplan : string :=
  "Aborting migration due to incompatible peer dependencies.".

Definition abortMessage (g : Gate) : string :=
  match g with
  | Rplan => abortRplan
  | NonRplan => abortNonRplan
  end.

(** The gate has nothing on [dep]: its manifest is not installed, or cannot
    be read. *)
Definition unknown (fs0 : FS) (dep : string) : Prop :=
  installed fs0 dep = Missing \/ installed fs0 dep = Unreadable.

(** No peer requirement of the installed [dep] on an anchor names the old
    major version without the new one. *)
Definition compatible (g : Gate) (fs0 : FS) (dep : string) : Prop :=
  exists depPkg,
    installed fs0 dep = Parsed depPkg
    /\ forall key range,
         key ∈ anchors g ->
         default ∅ (peerDependencies depPkg) !! key = Some range ->
         ~ (substring "17." range /\ ~ substring "18" range).

Definition quiet (e : Event) : bool := negb (isPrompt e) && negb (isWrite e).

(** One call of [updateDeps] on a group that is there. *)
Definition overwrite (d : gmap string string) (target : string * string)
  : gmap string string :=
  if truthy (d !! target.1) then <[target.1 := target.2]> d else d.

(** One turn of the loop of [updateCoreReactDeps]. *)
Definition updateGroups (pkg : PackageJson) (target : string * string) : PackageJson :=
  React18.setDeps pkg
    (React18.updatedDeps (dependencies pkg) target.1 target.2)
    (React18.updatedDeps (devDependencies pkg) target.1 target.2)
    (React18.updatedDeps (peerDependencies pkg) target.1 target.2).

(** How a dependency group may differ after the update: it is there exactly
    when it was, with the same keys; an entry differs only under a target
    name that was already a key; and a target whose entry was truthy now
    holds the target version. *)
Definition onlyOverwrites (targets : list (string * string))
    (before after : option (gmap string string)) : Prop :=
  match before, after with
  | None, None => True
  | Some d, Some d' =>
      dom d' = dom d
      /\ (forall name, d' !! name <> d !! name -> name ∈ targets.*1 /\ is_Some (d !! name))
      /\ (forall name, name ∉ targets.*1 -> d' !! name = d !! name)
      /\ (forall name version,
            (name, version) ∈ targets -> truthy (d !! name) = true ->
            d' !! name = Some version)
  | _, _ => False
  end.

(** The rest of a run from some point on: it returns exactly when an event
    that passes [good] is among those still to come, and when it ends the
    process it does so with code 1. *)
Definition finishes {A} (good : Event -> bool) (m : M A) : Prop :=
  forall w, exists t,
    trace (m w).2 = (trace w ++ t)%list
    /\ (existsb good t = true <-> exists a, (m w).1 = Ret a)
    /\ (forall code, (m w).1 = Exit code -> code = 1%Z).

(** A run is left waiting only at a question that gets no line, and the
    query is then the last thing it has written. *)
Definition waitsAtQuestion {A} (env : Env) (m : M A) : Prop :=
  forall w,
    (m w).1 = Pending ->
    operator env (pred (asked (m w).2)) = None
    /\ exists query, last (trace (m w).2) = Some (EvQuestion query).

(** Once an event that passes [bad] is emitted, the run ends in
    [process.exit(1)]. *)
Definition diesOn {A} (bad : Event -> bool) (m : M A) : Prop :=
  forall w, exists t,
    trace (m w).2 = (trace w ++ t)%list
    /\ (existsb bad t = true -> (m w).1 = Exit 1).

(** The events of a run split in two: none of the first part passes
    [marker], none of the second part is a write. *)
Definition writesFirst {A} (marker : Event -> bool) (m : M A) : Prop :=
  forall w, exists t1 t2,
    trace (m w).2 = (trace w ++ t1 ++ t2)%list
    /\ forallb (fun e => negb (marker e)) t1 = true
    /\ forallb (fun e => negb (isWrite e)) t2 = true.

Definition isAbort (e : Event) : bool :=
  isLog Error abortRplan e || isLog Error abortNonRplan e.

Definition isFailed (command : string) (e : Event) : bool :=
  isExec command e && isFailedExec e.

(** What can be seen of the React run before its second step is over. *)
Definition early (e : Event) : bool :=
  negb (isWrite e) && negb (isPrompt e)
  && negb (isStepBox "Update @rplan/* dependencies" e)
  && negb (isExec "npm install" e).

(** No child process creates a [package.json] that is not there. *)
Definition staysAbsent (env : Env) : Prop :=
  forall command fs0,
    packageJson fs0 = Missing -> packageJson (exec env command fs0).2 = Missing.

(** One turn of the loop of [syncRplanPeerDepsToInstalled]. *)
Definition syncPeer (allDeps peerDeps : gmap string string) (dep : string)
  : gmap string string :=
  if startsWith dep "@rplan/" && truthy (peerDeps !! dep)
  then <[dep := default EmptyString (allDeps !! dep)]> peerDeps
  else peerDeps.

(** The warning of a gate about a dependency it cannot check. *)
Definition cannotCheck (dep : string) : Event :=
  EvLog Warn ("Could not check peerDependencies for " ++ dep).

(** What one turn of a gate's loop prints: a warning when the manifest of an
    inspected dependency is there and cannot be read. *)
Definition warning (g : Gate) (pkg : PackageJson) (fs0 : FS) (dep : string) : list Event :=
  if exempt g pkg dep then []
  else match installed fs0 dep with
       | Unreadable => [ cannotCheck dep ]
       | _ => []
       end.

(** A run puts at most [n] questions to the operator. *)
Definition asksAtMost {A} (n : nat) (m : M A) : Prop :=
  forall w, asked w <= asked (m w).2 <= asked w + n.

(** The events of a run split in two: none of the first part passes [late],
    none of the second part passes [bad], and the second part is empty as
    soon as the first has an event that passes [bad]. *)
Definition haltsBefore {A} (bad late : Event -> bool) (m : M A) : Prop :=
  forall w, exists t1 t2,
    trace (m w).2 = (trace w ++ t1 ++ t2)%list
    /\ forallb (fun e => negb (late e)) t1 = true
    /\ forallb (fun e => negb (bad e)) t2 = true
    /\ (existsb bad t1 = true -> t2 = []).

(** A file of a directory listing, by the names that lead to it. *)
Inductive fileIn : list (string * Node) -> list string -> Prop :=
| fileHere (items : list (string * Node)) (name text : string) :
    (name, TextFile text) ∈ items -> fileIn items [ name ]
| fileBelow (items sub : list (string * Node)) (folder : string) (rest : list string) :
    (folder, Folder sub) ∈ items -> fileIn sub rest -> fileIn items (folder :: rest).

(** What a search of the listing [items] of [dir] is after: a file below
    folders none of which is ignored, with a name that passes the test of the
    search. *)
Definition found (keep : string -> string -> bool) (items : list (string * Node))
    (dir p : list string) : Prop :=
  exists folders name,
    p = (dir ++ folders ++ [ name ])%list
    /\ fileIn items (folders ++ [ name ])%list
    /\ Forall (fun folder => arrayIncludes Node22.IGNORED_FOLDERS folder = false) folders
    /\ keep name (Node22.renderPath p) = true.

(** The step a run is in after the events [t], when it was in [step]: each
    blue box opens a step. *)
Definition stepAfter (step : string) (t : list Event) : string :=
  fold_left (fun step e => match e with EvBox Info title => title | _ => step end) t step.

(** Every write among the events [t] happens in a step that passes
    [allowed], for a run that is in [step] before them. *)
Fixpoint writesIn (allowed : string -> bool) (step : string) (t : list Event) : bool :=
  match t with
  | [] => true
  | EvBox Info title :: rest => writesIn allowed title rest
  | e :: rest => (allowed step || negb (isWrite e)) && writesIn allowed step rest
  end.

Definition writesOnlyIn {A} (allowed : string -> bool) (step : string) (m : M A) : Prop :=
  forall w, exists t,
    trace (m w).2 = (trace w ++ t)%list /\ writesIn allowed step t = true.

(** An event that opens no step and, unless the current step may write, is
    no write. *)
Definition steady (mayWrite : bool) (e : Event) : bool :=
  match e with
  | EvBox Info _ => false
  | _ => mayWrite || negb (isWrite e)
  end.

Definition updateTitle : string := "Update core React dependencies".
Definition syncTitle : string := "Sync @rplan/* peerDependencies to installed versions".

(** The steps of the React migration that save the manifest. *)
Definition saving (step : string) : bool := arrayIncludes [ updateTitle; syncTitle ] step.

(** The manifest on disk after the events [t] if nothing but the script's
    own writes changes it. *)
Definition written (init : File PackageJson) (t : list Event) : File PackageJson :=
  fold_left (fun file e => match e with EvWriteManifest data => Parsed data | _ => file end)
            t init.

Definition tracked (w w' : World) : Prop :=
  exists t,
    trace w' = (trace w ++ t)%list
    /\ packageJson (fs w') = written (packageJson (fs w)) t.

Definition isWriteManifest (e : Event) : bool :=
  match e with
  | EvWriteManifest _ => true
  | _ => false
  end.

(** No child process changes [package.json]. *)
Definition keepsManifest (env : Env) : Prop :=
  forall command fs0, packageJson (exec env command fs0).2 = packageJson fs0.

(** The only files an event may write are those of [paths]. *)
Definition writesWithin (paths : list (list string)) (e : Event) : bool :=
  match e with
  | EvWriteFile p _ => bool_decide (p ∈ paths)
  | EvWriteManifest _ => false
  | _ => true
  end.

(** * Sample projects *)

Definition manifest (deps devDeps peerDeps : option (gmap string string)) : PackageJson :=
  mkPackageJson deps devDeps peerDeps None [].

(** An operator who types the same line at every prompt, and child
    processes that all succeed and leave the files alone. The names in the
    samples are ASCII, on which the case mapping of every runtime is that of
    [foldCase]. *)
Definition calmEnv (answer : string) : Env :=
  mkEnv (fun _ fs0 => (true, fs0)) (fun _ => Some answer) (22, 0, 0)%N Missing foldCase.

(** The same with an input that is at its end: no question gets a line. *)
Definition silentEnv : Env :=
  mkEnv (fun _ fs0 => (true, fs0)) (fun _ => None) (22, 0, 0)%N Missing foldCase.

(** [widget-lib] as installed, asking for React 17 only. *)
Definition widgetLib17 : PackageJson :=
  manifest None None (Some {[ "react" := "^17.0.0" ]}).

(** [widget-lib] as installed, accepting React 17 and 18. *)
Definition widgetLibBoth : PackageJson :=
  manifest None None (Some {[ "react" := "^17.0.0 || ^18.0.0" ]}).

Definition widgetProject : PackageJson :=
  manifest (Some {[ "react" := "^17.0.2"; "widget-lib" := "^1.0.0" ]}) None None.

Definition widgetFS (widget : PackageJson) : FS :=
  mkFS (Parsed widgetProject) {[ "widget-lib" := Some widget ]} [].

(** A project that depends on [foo], which is not under [node_modules]. *)
Definition fooProject : PackageJson :=
  manifest (Some {[ "foo" := "1.0.0" ]}) None None.

Definition fooFS : FS := mkFS (Parsed fooProject) ∅ [].

(** The renderer as installed before the migration: version 17, with a peer
    requirement on React 17. *)
Definition renderer17 : PackageJson :=
  manifest None None (Some {[ "react" := "^17.0.0" ]}).

(** A project that declares the renderer at [range]. *)
Definition rendererProject (range : string) : PackageJson :=
  manifest (Some {[ "react" := "^18.3.1" ]})
           (Some {[ "react-test-renderer" := range ]}) None.

Definition rendererFS (range : string) : FS :=
  mkFS (Parsed (rendererProject range)) {[ "react-test-renderer" := Some renderer17 ]} [].


(** A project on a managed package whose installed manifest asks for
    React 17 only. *)
Definition rplanUi17 : PackageJson :=
  manifest None None (Some {[ "react" := "^17.0.0"; "react-dom" := "^17.0.0" ]}).

Definition rplanProject : PackageJson :=
  manifest (Some {[ "react" := "^17.0.2"; "@rplan/ui" := "1.0.0" ]}) None None.

Definition rplanFS : FS :=
  mkFS (Parsed rplanProject) {[ "@rplan/ui" := Some rplanUi17 ]} [].

(** Child processes fail exactly on the commands that pass [failing], and
    leave the files alone; the operator types [n]. *)
Definition failingEnv (failing : string -> bool) : Env :=
  mkEnv (fun command fs0 => (negb (failing command), fs0))
        (fun _ => Some "n") (22, 0, 0)%N Missing foldCase.

(** [ncu] is installed, but its update of the managed packages fails. *)
Definition noUpdateEnv : Env := failingEnv (includes "@rplan").

(** Every [ncu] command fails, every other child process succeeds. *)
Definition noNcuEnv : Env := failingEnv (String.prefix "ncu ").

(** A directory with an empty workflow folder and no [package.json]. *)
Definition bareFS : FS :=
  mkFS Missing ∅ [ (".github", Folder [ ("workflows", Folder []) ]) ].

(** A project with a managed package declared as a peer as well. *)
Definition peerProject : PackageJson :=
  manifest (Some {[ "@rplan/ui" := "2.0.0"; "lodash" := "4.17.21" ]})
           (Some {[ "@rplan/ui" := "2.1.0" ]})
           (Some {[ "@rplan/ui" := "1.0.0"; "lodash" := "4.0.0" ]}).

Definition peerFS : FS := mkFS (Parsed peerProject) ∅ [].

(** An interpreter that is too old for the Node script. *)
Definition oldNodeEnv : Env :=
  mkEnv (fun _ fs0 => (true, fs0)) (fun _ => Some "no") (20, 11, 1)%N Missing foldCase.

(** The script sits in the project directory: [require] finds the
    [package.json] of the project. *)
Definition enginesProject : PackageJson :=
  mkPackageJson (Some {[ "left-pad" := "1.3.0" ]}) None None
                (Some {[ "node" := ">=20"; "npm" := ">=10" ]}) [].

Definition homeEnv : Env :=
  mkEnv (fun _ fs0 => (true, fs0)) (fun _ => Some "no") (22, 0, 0)%N (Parsed enginesProject)
        foldCase.

Definition enginesFS : FS := mkFS (Parsed enginesProject) ∅ [].

(** A tree with an image file at its root, one in a service folder and one
    under [node_modules]. *)
Definition imageFS : FS :=
  mkFS Missing ∅
    [ ("Dockerfile", TextFile "FROM node:20-alpine");
      ("services", Folder [ ("api", Folder [ ("dockerfile", TextFile "FROM node:18") ]) ]);
      ("node_modules", Folder [ ("pkg", Folder [ ("Dockerfile", TextFile "FROM node:20") ]) ]);
      (".github", Folder [ ("workflows", Folder [ ("ci.yml", TextFile "node_version: [20]") ]) ]) ].

(** A file whose name is [dockerfile] with the Kelvin sign (U+212A) in the
    place of its [k], and a runtime whose [toLowerCase] maps that sign to
    [k], as that of Node.js does. *)
Definition kelvinName : string := "doc" ++ bytes [ 226; 132; 170 ] ++ "erfile".

Definition kelvinEnv : Env :=
  mkEnv (fun _ fs0 => (true, fs0)) (fun _ => Some "no") (22, 0, 0)%N Missing
        (fun s => if String.eqb s kelvinName then "dockerfile" else foldCase s).

Definition kelvinFS : FS :=
  mkFS Missing ∅ [ ("k", Folder [ (kelvinName, TextFile "FROM node:20") ]) ].

(** * Strings *)

Lemma prefix_app (p s : string) :
  String.prefix p s = true <-> exists q, s = p ++ q.
Proof.
  revert p. induction s as [|b s IH]; intros [|a p]; cbn.
  - split; [intros _; by exists EmptyString | done].
  - split; [done | intros [q Hq]; discriminate].
  - split; [intros _; by exists (String b s) | done].
  - destruct (ascii_dec a b) as [->|Hne].
    + rewrite IH. split; intros [q Hq]; exists q; [by rewrite Hq | by injection Hq].
    + split; [done | intros [q Hq]; injection Hq; intros; congruence].
Qed.

Lemma includes_substring (needle hay : string) :
  includes needle hay = true <-> substring needle hay.
Proof.
  unfold substring. induction hay as [|c rest IH].
  - cbn [includes]. rewrite orb_false_r, prefix_app. split.
    + intros [q Hq]. by exists EmptyString, q.
    + intros (b & a & Hq). destruct b; [|discriminate]. by exists a.
  - cbn [includes]. rewrite orb_true_iff, prefix_app, IH. split.
    + intros [[q Hq]|(b & a & Hq)].
      * by exists EmptyString, q.
      * exists (String c b), a. by rewrite Hq.
    + intros (b & a & Hq). destruct b as [|c' b].
      * left. by exists a.
      * right. injection Hq as _ Hq. by exists b, a.
Qed.

Lemma includes_not_substring (needle hay : string) :
  includes needle hay = false <-> ~ substring needle hay.
Proof.
  rewrite <- includes_substring. by destruct (includes needle hay).
Qed.

(** * Rules for footprints *)

Section Footprints.
Context (R : World -> World -> Prop) `{!PreOrder R}.

Lemma preserves_ret {A} (a : A) : preserves R (ret a).
Proof. intros w. split; [reflexivity | done]. Qed.

Lemma preserves_exit {A} : preserves R (@exit A 1).
Proof. intros w. split; [reflexivity | by intros ? [= <-]]. Qed.

Lemma preserves_throw {A} : preserves R (@throw A).
Proof. intros w. split; [reflexivity | done]. Qed.

Lemma preserves_getFS : preserves R getFS.
Proof. intros w. split; [reflexivity | done]. Qed.

Lemma preserves_bind {A B} (m : M A) (k : A -> M B) :
  preserves R m -> (forall a, preserves R (k a)) -> preserves R (bind m k).
Proof.
  intros Hm Hk w. unfold bind. specialize (Hm w).
  destruct (m w) as [[a|code| |] w1]; simpl in *.
  - destruct Hm as [Hm _]. destruct (Hk a w1) as [Hk1 Hk2].
    split; [by etrans | done].
  - destruct Hm as [Hm Hc]. split; [done|]. intros c [= <-]. by apply Hc.
  - destruct Hm as [Hm _]. by split.
  - destruct Hm as [Hm _]. by split.
Qed.

Lemma preserves_try_catch {A} (m handler : M A) :
  preserves R m -> preserves R handler -> preserves R (try_catch m handler).
Proof.
  intros Hm Hh w. unfold try_catch. specialize (Hm w).
  destruct (m w) as [[a|code| |] w1]; simpl in *; [done|done| |done].
  destruct Hm as [Hm _]. destruct (Hh w1) as [Hh1 Hh2].
  split; [by etrans | done].
Qed.

Lemma preserves_foldM {A B} (f : B -> A -> M B) (l : list A) (b : B) :
  (forall b x, preserves R (f b x)) -> preserves R (foldM f l b).
Proof.
  intros Hf. revert b. induction l as [|x l IH]; intros b; simpl.
  - apply preserves_ret.
  - apply preserves_bind; [apply Hf | apply IH].
Qed.

Lemma preserves_forEach {A} (l : list A) (f : A -> M unit) :
  (forall x, preserves R (f x)) -> preserves R (forEach l f).
Proof. intros Hf. apply preserves_foldM. intros _ x. apply Hf. Qed.

End Footprints.

#[local] Instance grows_preorder (p : Event -> bool) : PreOrder (grows p).
Proof.
  split.
  - intros w. exists []. by rewrite app_nil_r.
  - intros w1 w2 w3 (t1 & H1 & Ht1) (t2 & H2 & Ht2). exists (t1 ++ t2)%list.
    rewrite H2, H1, <- app_assoc, forallb_app, Ht1, Ht2. done.
Qed.

#[local] Instance sameFS_preorder : PreOrder sameFS.
Proof. split; unfold sameFS; [done | intros ???; congruence]. Qed.

#[local] Instance sameAsked_preorder : PreOrder sameAsked.
Proof. split; unfold sameAsked; [done | intros ???; congruence]. Qed.

Lemma grows_emit (p : Event -> bool) (e : Event) :
  p e = true -> preserves (grows p) (emit e).
Proof.
  intros He w. split; [|done]. exists [ e ]. simpl. by rewrite He.
Qed.

Lemma grows_putFS (p : Event -> bool) (fs' : FS) : preserves (grows p) (putFS fs').
Proof. intros w. split; [|done]. exists []. simpl. by rewrite app_nil_r. Qed.

Lemma grows_execSync (p : Event -> bool) (env : Env) (command : string) :
  (forall ok, p (EvExec command ok) = true) -> preserves (grows p) (execSync env command).
Proof.
  intros He w. unfold execSync.
  destruct (exec env command (fs w)) as [ok fs'] eqn:E.
  assert (grows p w (mkWorld fs' (asked w) (trace w ++ [EvExec command ok]))).
  { exists [ EvExec command ok ]. simpl. by rewrite He. }
  by destruct ok.
Qed.

Lemma grows_question (p : Event -> bool) (env : Env) (query : string) :
  p (EvQuestion query) = true -> (forall line, p (EvAnswer line) = true) ->
  preserves (grows p) (question env query).
Proof.
  intros Hq Ha w. unfold question. destruct (operator env (asked w)) as [line|].
  - split; [|done]. eexists. split; [done|]. simpl. by rewrite Hq, Ha.
  - split; [|done]. eexists. split; [done|]. simpl. by rewrite Hq.
Qed.

Lemma sameFS_emit (e : Event) : preserves sameFS (emit e).
Proof. by intros w. Qed.

Lemma sameFS_question (env : Env) (query : string) :
  preserves sameFS (question env query).
Proof. intros w. unfold question. by destruct (operator env (asked w)). Qed.

Lemma sameAsked_emit (e : Event) : preserves sameAsked (emit e).
Proof. by intros w. Qed.

Lemma sameAsked_putFS (fs' : FS) : preserves sameAsked (putFS fs').
Proof. by intros w. Qed.

Lemma sameAsked_execSync (env : Env) (command : string) :
  preserves sameAsked (execSync env command).
Proof.
  intros w. unfold execSync. destruct (exec env command (fs w)) as [[] fs']; by split.
Qed.

(** * The loops of the two gates *)

Lemma world_eta (w : World) : w = mkWorld (fs w) (asked w) (trace w ++ []).
Proof. destruct w. simpl. by rewrite app_nil_r. Qed.

Lemma checkInstalled_run (keys : list string) (issues : list React18.Issue)
    (dep : string) (w : World) :
  exists t,
    React18.checkInstalled keys issues dep w
    = (Ret (inspect keys (fs w) issues dep), mkWorld (fs w) (asked w) (trace w ++ t))
    /\ forallb isWarning t = true.
Proof.
  unfold React18.checkInstalled, try_catch, bind, getFS, inspect.
  destruct (installed (fs w) dep) as [| |depPkg]; simpl.
  - exists []. by rewrite <- world_eta.
  - by eexists [ _ ].
  - exists []. by rewrite <- world_eta.
Qed.

Lemma foldM_pure {A B} (f : B -> A -> M B) (F : FS -> B -> A -> B) (p : Event -> bool) :
  (forall b x w, exists t,
      f b x w = (Ret (F (fs w) b x), mkWorld (fs w) (asked w) (trace w ++ t))
      /\ forallb p t = true) ->
  forall l b w, exists t,
    foldM f l b w = (Ret (fold_left (F (fs w)) l b), mkWorld (fs w) (asked w) (trace w ++ t))
    /\ forallb p t = true.
Proof.
  intros Hf l. induction l as [|x l IH]; intros b w; simpl.
  - exists []. by rewrite <- world_eta.
  - unfold bind. destruct (Hf b x w) as (t1 & -> & Ht1).
    destruct (IH (F (fs w) b x) (mkWorld (fs w) (asked w) (trace w ++ t1)))
      as (t2 & -> & Ht2).
    exists (t1 ++ t2)%list. simpl. by rewrite <- app_assoc, forallb_app, Ht1, Ht2.
Qed.

Lemma issuesOf_run (g : Gate) (pkg : PackageJson) (w : World) :
  exists t,
    issuesOf g pkg w
    = (Ret (inspectAll g pkg (fs w)), mkWorld (fs w) (asked w) (trace w ++ t))
    /\ forallb isWarning t = true.
Proof.
  destruct g; unfold issuesOf, React18.rplanIssues, React18.nonRplanIssues, inspectAll.
  - apply (foldM_pure _ (fun fs0 issues dep => inspect _ fs0 issues dep)).
    intros b x w'. apply checkInstalled_run.
  - apply (foldM_pure _
             (fun fs0 issues dep =>
                if exempt NonRplan pkg dep then issues
                else inspect (anchors NonRplan) fs0 issues dep)).
    intros b x w'. simpl. destruct (React18.ignored pkg x).
    + exists []. by rewrite <- world_eta.
    + apply checkInstalled_run.
Qed.

Lemma requiresReact17_truthy (range : string) :
  React18.requiresReact17 range = true -> truthy (Some range) = true.
Proof. by destruct range. Qed.

Lemma checkPeers_elem (dep : string) (peer : gmap string string) (keys : list string)
    (issues : list React18.Issue) (i : React18.Issue) :
  i ∈ React18.checkPeers dep peer keys issues
  <-> i ∈ issues
      \/ (React18.issue_name i = dep /\ React18.issue_peer i ∈ keys
          /\ peer !! React18.issue_peer i = Some (React18.issue_required i)
          /\ React18.requiresReact17 (React18.issue_required i) = true).
Proof.
  unfold React18.checkPeers. revert issues.
  induction keys as [|key keys IH]; intros issues; cbn [fold_left].
  - split; [by left | intros [?|(_ & H & _)]; [done | by apply elem_of_nil in H]].
  - rewrite IH. clear IH. destruct (peer !! key) as [range|] eqn:Hkey.
    + destruct (truthy (Some range) && React18.requiresReact17 range) eqn:Hreq.
      * apply andb_true_iff in Hreq as [_ Hreq].
        rewrite elem_of_app, list_elem_of_singleton. split.
        -- intros [[? | ->] | (? & ? & ? & ?)].
           ++ by left.
           ++ right. simpl. repeat split; [left | done..].
           ++ right. repeat split; [done | by right | done..].
        -- intros [?|(Hn & Hk & Hp & Hr)]; [by left; left|].
           apply elem_of_cons in Hk as [Hk|Hk].
           ++ left. right. destruct i as [n k r]. simpl in *. subst.
              rewrite Hkey in Hp. by injection Hp as ->.
           ++ by right.
      * split.
        -- intros [?|(? & ? & ? & ?)]; [by left|]. right. repeat split; [done | by right | done..].
        -- intros [?|(Hn & Hk & Hp & Hr)]; [by left|].
           apply elem_of_cons in Hk as [Hk|Hk]; [|by right].
           rewrite Hk, Hkey in Hp. injection Hp as Hp. rewrite <- Hp in Hr.
           by rewrite Hr, (requiresReact17_truthy _ Hr) in Hreq.
    + split.
      * intros [?|(? & ? & ? & ?)]; [by left|]. right. repeat split; [done | by right | done..].
      * intros [?|(Hn & Hk & Hp & Hr)]; [by left|].
        apply elem_of_cons in Hk as [Hk|Hk]; [|by right].
        by rewrite Hk, Hkey in Hp.
Qed.

Lemma inspect_elem (keys : list string) (fs0 : FS) (issues : list React18.Issue)
    (dep : string) (i : React18.Issue) :
  i ∈ inspect keys fs0 issues dep
  <-> i ∈ issues
      \/ (React18.issue_name i = dep
          /\ exists depPkg,
               installed fs0 dep = Parsed depPkg
               /\ React18.issue_peer i ∈ keys
               /\ default ∅ (peerDependencies depPkg) !! React18.issue_peer i
                  = Some (React18.issue_required i)
               /\ React18.requiresReact17 (React18.issue_required i) = true).
Proof.
  unfold inspect. destruct (installed fs0 dep) as [| |depPkg].
  - split; [by left | by intros [?|(_ & ? & ? & _)]].
  - split; [by left | by intros [?|(_ & ? & ? & _)]].
  - rewrite checkPeers_elem. split.
    + intros [?|(? & ? & ? & ?)]; [by left|]. right. split; [done|]. by exists depPkg.
    + intros [?|(? & d & [= <-] & ? & ? & ?)]; [by left|]. by right.
Qed.

Lemma inspectAll_elem (g : Gate) (pkg : PackageJson) (fs0 : FS) (i : React18.Issue) :
  i ∈ inspectAll g pkg fs0 <-> flaggedBy g pkg fs0 i.
Proof.
  unfold inspectAll, flaggedBy.
  assert (forall deps issues,
    i ∈ fold_left
          (fun issues dep =>
             if exempt g pkg dep then issues else inspect (anchors g) fs0 issues dep)
          deps issues
    <-> i ∈ issues
        \/ (React18.issue_name i ∈ deps
            /\ exempt g pkg (React18.issue_name i) = false
            /\ exists depPkg,
                 installed fs0 (React18.issue_name i) = Parsed depPkg
                 /\ React18.issue_peer i ∈ anchors g
                 /\ default ∅ (peerDependencies depPkg) !! React18.issue_peer i
                    = Some (React18.issue_required i)
                 /\ React18.requiresReact17 (React18.issue_required i) = true)) as H.
  { induction deps as [|dep deps IH]; intros issues; simpl.
    - split; [by left | intros [?|(H & _)]; [done | by apply elem_of_nil in H]].
    - rewrite IH. clear IH. destruct (exempt g pkg dep) eqn:Hex.
      + split.
        * intros [?|(? & ? & ?)]; [by left|]. right. split; [by right | done].
        * intros [?|(Hd & Hx & ?)]; [by left|].
          apply elem_of_cons in Hd as [Hd|Hd]; [congruence | by right].
      + rewrite inspect_elem. split.
        * intros [[?|(Hn & ?)]|(? & ? & ?)].
          -- by left.
          -- right. rewrite Hn. split; [left | done].
          -- right. split; [by right | done].
        * intros [?|(Hd & Hx & He)]; [by left; left|].
          apply elem_of_cons in Hd as [Hd|Hd]; [|by right].
          left. right. split; [done|]. by rewrite <- Hd. }
  rewrite H. split; [intros [Hn|?]; [by apply elem_of_nil in Hn | done] | by right].
Qed.

(** * The decision of the two gates *)

Lemma forEach_logIssue (issues : list React18.Issue) (w : World) :
  exists t,
    forEach issues React18.logIssue w
    = (Ret tt, mkWorld (fs w) (asked w) (trace w ++ t))
    /\ forallb isWarning t = true.
Proof.
  destruct (foldM_pure (fun (_ : unit) i => React18.logIssue i) (fun _ _ _ => tt) isWarning)
    with (l := issues) (b := tt) (w := w) as (t & Ht & Hw).
  - intros [] i w'. by eexists [ _ ].
  - exists t. split; [|done]. unfold forEach. rewrite Ht.
    generalize (fold_left (fun (_ : unit) (_ : React18.Issue) => tt) issues tt).
    by intros [].
Qed.

Lemma loadPackageJson_parsed (pkg : PackageJson) (w : World) :
  packageJson (fs w) = Parsed pkg -> React18.loadPackageJson w = (Ret pkg, w).
Proof. intros H. unfold React18.loadPackageJson, bind, getFS. by rewrite H. Qed.

Lemma isWarning_quiet (t : list Event) :
  forallb isWarning t = true -> forallb quiet t = true.
Proof.
  rewrite !forallb_forall. intros H e He. specialize (H e He).
  by destruct e as [[]| | | | | |].
Qed.

Lemma check_clean (env : Env) (g : Gate) (pkg : PackageJson) (w : World) :
  packageJson (fs w) = Parsed pkg ->
  inspectAll g pkg (fs w) = [] ->
  exists t,
    check env g w = (Ret tt, mkWorld (fs w) (asked w) (trace w ++ t))
    /\ forallb quiet t = true.
Proof.
  intros Hpkg Hnone.
  destruct (issuesOf_run g pkg w) as (t & Hrun & Ht). rewrite Hnone in Hrun.
  apply isWarning_quiet in Ht.
  destruct g; simpl in Hrun;
    unfold check, React18.checkRplanPeerDepsForReact17Prompt,
      React18.checkNonRplanPeerDepsForReact17Prompt, bind;
    rewrite (loadPackageJson_parsed pkg w Hpkg), Hrun; simpl;
    eexists (t ++ [ _ ])%list; rewrite app_assoc; (split; [done|]);
    by rewrite forallb_app, Ht.
Qed.

Lemma check_flagged (env : Env) (g : Gate) (pkg : PackageJson) (w : World) :
  packageJson (fs w) = Parsed pkg ->
  inspectAll g pkg (fs w) <> [] ->
  exists t,
    check env g w
    = (match operator env (asked w) with
       | Some answer => if React18.affirmative answer then Ret tt else Exit 1
       | None => Pending
       end,
       mkWorld (fs w) (S (asked w)) (trace w ++ t))
    /\ forallb (fun e => negb (isWrite e)) t = true
    /\ (forall answer,
          operator env (asked w) = Some answer ->
          React18.affirmative answer = false ->
          last t = Some (EvLog Error (abortMessage g)))
    /\ (operator env (asked w) = None ->
        last t = Some (EvQuestion React18.promptText)).
Proof.
  intros Hpkg Hsome.
  destruct (issuesOf_run g pkg w) as (t & Hrun & Ht).
  destruct (inspectAll g pkg (fs w)) as [|i issues] eqn:Hall; [done|].
  assert (forall t', forallb isWarning t' = true ->
                     forallb (fun e => negb (isWrite e)) t' = true) as Hweak.
  { intros t'. rewrite !forallb_forall. intros H e He. specialize (H e He).
    by destruct e as [[]| | | | | |]. }
  destruct g; simpl in Hrun;
    unfold check, React18.checkRplanPeerDepsForReact17Prompt,
      React18.checkNonRplanPeerDepsForReact17Prompt, bind;
    rewrite (loadPackageJson_parsed pkg w Hpkg), Hrun; cbn [log emit fs asked trace];
    match goal with
    | |- context [forEach ?l React18.logIssue ?w1] =>
        destruct (forEach_logIssue l w1) as (t2 & -> & Ht2)
    end;
    unfold React18.promptContinue, bind, question, ret; cbn [fs asked trace];
    (destruct (operator env (asked w)) as [answer|];
     [ destruct (React18.affirmative answer) eqn:Hanswer;
       cbn [negb]; unfold log, emit, exit; cbn [fs asked trace];
       eexists (t ++ [ _ ] ++ t2 ++ [ _; _ ] ++ [ _ ])%list
     | eexists (t ++ [ _ ] ++ t2 ++ [ _ ])%list ]);
    (split; [by rewrite <- !app_assoc|]);
    (split; [by rewrite !forallb_app, (Hweak _ Ht), (Hweak _ Ht2)|]);
    (split;
     [intros answer' Heq Hno;
      first [ discriminate Heq
            | injection Heq as <-; rewrite ?app_assoc, ?last_snoc; first [done | congruence] ]|]);
    intros; rewrite ?app_assoc, ?last_snoc; done.
Qed.

Lemma requiresReact17_substring (range : string) :
  React18.requiresReact17 range = true
  <-> substring "17." range /\ ~ substring "18" range.
Proof.
  unfold React18.requiresReact17.
  rewrite andb_true_iff, negb_true_iff, includes_substring, includes_not_substring.
  done.
Qed.

(** * The compatibility gate *)



(** C2: a dependency whose installed manifest is absent or cannot be parsed
    never gets an entry in [issues], and when every candidate of a gate is
    either such a dependency or a compatible one, the gate returns without
    asking the operator anything and without ending the process. *)
Theorem unknown_is_skipped_and_never_blocks (env : Env) (g : Gate) (pkg : PackageJson)
    (w : World) :
  packageJson (fs w) = Parsed pkg ->
  (exists issues w',
     issuesOf g pkg w = (Ret issues, w')
     /\ forall dep i, unknown (fs w) dep -> i ∈ issues -> React18.issue_name i <> dep)
  /\ (Forall (fun dep => unknown (fs w) dep \/ compatible g (fs w) dep) (candidates g pkg) ->
      exists t,
        check env g w = (Ret tt, mkWorld (fs w) (asked w) (trace w ++ t))
        /\ forallb quiet t = true).
Proof.
  intros Hpkg. split.
  - destruct (issuesOf_run g pkg w) as (t & Hrun & _).
    eexists _, _. split; [exact Hrun|].
    intros dep i Hunknown Hi <-. apply inspectAll_elem in Hi.
    destruct Hi as (_ & _ & d & Hd & _). destruct Hunknown; congruence.
  - intros Hall. apply (check_clean env g pkg w Hpkg).
    destruct (inspectAll g pkg (fs w)) as [|i issues] eqn:Hissues; [done|].
    assert (i ∈ inspectAll g pkg (fs w)) as Hi by (rewrite Hissues; left).
    apply inspectAll_elem in Hi.
    destruct Hi as (Hcand & _ & d & Hd & Hkey & Hrange & Hreq).
    rewrite Forall_forall in Hall.
    destruct (Hall _ Hcand) as [[?|?]|(d' & Hd' & Hok)]; [congruence..|].
    rewrite Hd in Hd'. injection Hd' as <-.
    destruct (Hok _ _ Hkey Hrange). by apply requiresReact17_substring.
Qed.

Lemma unknown_is_skipped_and_never_blocks_witness :
  packageJson (fs (start fooFS)) = Parsed fooProject
  /\ candidates NonRplan fooProject = [ "foo" ]
  /\ unknown fooFS "foo"
  /\ exists t,
       check (calmEnv "n") NonRplan (start fooFS)
       = (Ret tt, mkWorld fooFS 0 ([] ++ t))
       /\ forallb quiet t = true.
Proof.
  split; [reflexivity|].
  assert (candidates NonRplan fooProject = [ "foo" ]) as Hc by (vm_compute; reflexivity).
  assert (unknown fooFS "foo") as Hu by (left; vm_compute; reflexivity).
  do 2 (split; [assumption|]).
  apply (unknown_is_skipped_and_never_blocks (calmEnv "n") NonRplan fooProject
           (start fooFS) eq_refl).
  change (fs (start fooFS)) with fooFS. rewrite Hc.
  constructor; [by left | constructor].
Defined.

(** What the allow-list does: a dependency that the second gate skips has no
    entry in [issues], whatever its installed manifest requires. *)
Lemma ignored_never_flagged (pkg : PackageJson) (w : World) (dep : string) :
  React18.ignored pkg dep = true ->
  exists issues w',
    React18.nonRplanIssues pkg w = (Ret issues, w')
    /\ forall i, i ∈ issues -> React18.issue_name i <> dep.
Proof.
  intros Hskip. destruct (issuesOf_run NonRplan pkg w) as (t & Hrun & _).
  eexists _, _. split; [exact Hrun|].
  intros i Hi <-. apply inspectAll_elem in Hi. destruct Hi as (_ & Hex & _).
  simpl in Hex. congruence.
Qed.

(** C3, at the range the script itself writes: with the renderer declared at
    ["^18.3.1"] and React ["^17.0.0"] required by the installed renderer, the
    second gate flags the renderer, and a declining operator ends the run. *)
Lemma renderer_at_caret_18_still_flagged :
  React18.ignored (rendererProject "^18.3.1") "react-test-renderer" = false
  /\ issuesOf NonRplan (rendererProject "^18.3.1") (start (rendererFS "^18.3.1"))
     = (Ret [ React18.mkIssue "react-test-renderer" "react" "^17.0.0" ],
        start (rendererFS "^18.3.1"))
  /\ (check (calmEnv "n") NonRplan (start (rendererFS "^18.3.1"))).1 = Exit 1.
Proof. repeat split; vm_compute; reflexivity. Qed.

(** C4: once a gate has found an issue, it asks once, and the run goes on
    only if the trimmed answer is [y] or [yes] in any letter case; any other
    answer, the empty one included, ends the process with code 1. (Without
    any answer the gate is left waiting, and the run does not go on either.) *)
Theorem abort_unless_affirmative (env : Env) (g : Gate) (pkg : PackageJson) (w w1 : World)
    (issues : list React18.Issue) :
  packageJson (fs w) = Parsed pkg ->
  issuesOf g pkg w = (Ret issues, w1) ->
  issues <> [] ->
  exists t,
    check env g w
    = (match operator env (asked w) with
       | Some answer => if React18.affirmative answer then Ret tt else Exit 1
       | None => Pending
       end,
       mkWorld (fs w) (S (asked w)) (trace w ++ t))
    /\ (forall answer,
          operator env (asked w) = Some answer ->
          React18.affirmative answer = false ->
          exitCode (check env g w).1 = 1%Z
          /\ last t = Some (EvLog Error (abortMessage g)))
    /\ (forall answer,
          React18.affirmative answer = true
          <-> foldCase (trim answer) = "y" \/ foldCase (trim answer) = "yes")
    /\ React18.affirmative "n" = false
    /\ React18.affirmative EmptyString = false
    /\ React18.affirmative "no" = false.
Proof.
  intros Hpkg Hrun Hsome.
  destruct (issuesOf_run g pkg w) as (t0 & Hrun' & _).
  rewrite Hrun in Hrun'. injection Hrun' as -> _.
  destruct (check_flagged env g pkg w Hpkg Hsome) as (t & Hcheck & _ & Hlast & _).
  exists t. split; [exact Hcheck|]. split.
  - intros answer Hanswer Hno. split; [|by apply (Hlast answer)].
    by rewrite Hcheck, Hanswer, Hno.
  - split; [|by vm_compute].
    intros answer. unfold React18.affirmative.
    by rewrite orb_true_iff, !String.eqb_eq.
Qed.

Lemma abort_unless_affirmative_witness :
  packageJson (fs (start (widgetFS widgetLib17))) = Parsed widgetProject
  /\ issuesOf NonRplan widgetProject (start (widgetFS widgetLib17))
     = (Ret [ React18.mkIssue "widget-lib" "react" "^17.0.0" ], start (widgetFS widgetLib17))
  /\ (check (calmEnv "no") NonRplan (start (widgetFS widgetLib17))).1 = Exit 1.
Proof.
  split; [reflexivity|].
  assert (issuesOf NonRplan widgetProject (start (widgetFS widgetLib17))
          = (Ret [ React18.mkIssue "widget-lib" "react" "^17.0.0" ],
             start (widgetFS widgetLib17))) as Hrun by (vm_compute; reflexivity).
  split; [exact Hrun|].
  destruct (abort_unless_affirmative (calmEnv "no") NonRplan widgetProject
              (start (widgetFS widgetLib17)) _ _ eq_refl Hrun ltac:(discriminate))
    as (t & -> & _).
  reflexivity.
Defined.

(** C5: when the loop of a gate leaves [issues] empty, the gate returns at
    once: no question is asked, nothing is written, and the process goes
    on. *)
Theorem proceed_without_prompt (env : Env) (g : Gate) (pkg : PackageJson) (w w1 : World) :
  packageJson (fs w) = Parsed pkg ->
  issuesOf g pkg w = (Ret [], w1) ->
  exists t,
    check env g w = (Ret tt, mkWorld (fs w) (asked w) (trace w ++ t))
    /\ forallb quiet t = true.
Proof.
  intros Hpkg Hrun.
  destruct (issuesOf_run g pkg w) as (t0 & Hrun' & _).
  rewrite Hrun in Hrun'. injection Hrun' as Hnone _.
  by apply (check_clean env g pkg w Hpkg).
Qed.

Lemma proceed_without_prompt_witness :
  packageJson (fs (start (widgetFS widgetLibBoth))) = Parsed widgetProject
  /\ issuesOf Rplan widgetProject (start (widgetFS widgetLibBoth))
     = (Ret [], start (widgetFS widgetLibBoth))
  /\ issuesOf NonRplan widgetProject (start (widgetFS widgetLibBoth))
     = (Ret [], start (widgetFS widgetLibBoth))
  /\ exists t,
       check (calmEnv "n") NonRplan (start (widgetFS widgetLibBoth))
       = (Ret tt, mkWorld (widgetFS widgetLibBoth) 0 ([] ++ t))
       /\ forallb quiet t = true.
Proof.
  split; [reflexivity|].
  split; [vm_compute; reflexivity|].
  assert (issuesOf NonRplan widgetProject (start (widgetFS widgetLibBoth))
          = (Ret [], start (widgetFS widgetLibBoth))) as Hrun by (vm_compute; reflexivity).
  split; [exact Hrun|].
  exact (proceed_without_prompt (calmEnv "n") NonRplan widgetProject
           (start (widgetFS widgetLibBoth)) _ eq_refl Hrun).
Defined.

(** C10: the second gate loops over no dependency named [react],
    [react-dom] or [@testing-library/react] and over none whose name starts
    with [@rplan/], so no entry of its [issues] carries such a name. *)
Theorem non_rplan_gate_skips_core_and_rplan (pkg : PackageJson) (w : World) :
  exists issues w',
    React18.nonRplanIssues pkg w = (Ret issues, w')
    /\ (forall dep,
          dep ∈ React18.allDeps pkg ->
          dep <> "react" /\ dep <> "react-dom" /\ dep <> "@testing-library/react"
          /\ forall rest, dep <> "@rplan/" ++ rest)
    /\ (forall i,
          i ∈ issues ->
          React18.issue_name i <> "react" /\ React18.issue_name i <> "react-dom"
          /\ React18.issue_name i <> "@testing-library/react"
          /\ forall rest, React18.issue_name i <> "@rplan/" ++ rest).
Proof.
  assert (forall dep,
            dep ∈ React18.allDeps pkg ->
            dep <> "react" /\ dep <> "react-dom" /\ dep <> "@testing-library/react"
            /\ forall rest, dep <> "@rplan/" ++ rest) as Hdeps.
  { intros dep Hdep. unfold React18.allDeps in Hdep.
    apply list_elem_of_filter in Hdep as [Hp _].
    apply Is_true_true, andb_true_iff in Hp as [Hr Hc].
    apply negb_true_iff in Hr, Hc.
    unfold arrayIncludes, React18.core in Hc. cbn [existsb] in Hc.
    rewrite !orb_false_iff, !String.eqb_neq in Hc.
    destruct Hc as (? & ? & ? & _). do 3 (split; [done|]).
    intros rest ->. unfold startsWith in Hr.
    assert (String.prefix "@rplan/" ("@rplan/" ++ rest) = true) as Hpre
      by (apply prefix_app; by exists rest).
    congruence. }
  destruct (issuesOf_run NonRplan pkg w) as (t & Hrun & _).
  eexists _, _. split; [exact Hrun|]. split; [exact Hdeps|].
  intros i Hi. apply inspectAll_elem in Hi. destruct Hi as (Hc & _).
  by apply Hdeps.
Qed.

(** * The update of the core dependencies *)

Lemma truthy_is_Some (v : option string) : truthy v = true -> is_Some v.
Proof. destruct v as [[|]|]; by eauto. Qed.

Lemma overwrite_dom (d : gmap string string) (target : string * string) :
  dom (overwrite d target) = dom d.
Proof.
  unfold overwrite. destruct (truthy (d !! target.1)) eqn:Ht; [|done].
  apply truthy_is_Some, elem_of_dom in Ht. rewrite dom_insert_L.
  apply set_eq. intros name. rewrite elem_of_union, elem_of_singleton.
  split; [intros [->|?]; done | by right].
Qed.

Lemma overwrite_other (d : gmap string string) (target : string * string) (name : string) :
  name <> target.1 -> overwrite d target !! name = d !! name.
Proof.
  intros Hne. unfold overwrite. destruct (truthy (d !! target.1)); [|done].
  by rewrite lookup_insert_ne.
Qed.

Lemma overwrite_same (d : gmap string string) (target : string * string) :
  truthy (d !! target.1) = true -> overwrite d target !! target.1 = Some target.2.
Proof. intros Ht. unfold overwrite. rewrite Ht. by rewrite lookup_insert_eq. Qed.

Lemma fold_overwrite_dom (targets : list (string * string)) (d : gmap string string) :
  dom (fold_left overwrite targets d) = dom d.
Proof.
  revert d. induction targets as [|target targets IH]; intros d; simpl; [done|].
  by rewrite IH, overwrite_dom.
Qed.

Lemma fold_overwrite_other (targets : list (string * string)) (d : gmap string string)
    (name : string) :
  name ∉ targets.*1 -> fold_left overwrite targets d !! name = d !! name.
Proof.
  revert d. induction targets as [|target targets IH]; intros d Hname; simpl; [done|].
  rewrite fmap_cons, not_elem_of_cons in Hname. destruct Hname as [Hne Hname].
  by rewrite IH, overwrite_other.
Qed.

Lemma fold_overwrite_target (targets : list (string * string)) (d : gmap string string)
    (name version : string) :
  NoDup targets.*1 -> (name, version) ∈ targets -> truthy (d !! name) = true ->
  fold_left overwrite targets d !! name = Some version.
Proof.
  revert d. induction targets as [|target targets IH]; intros d Hnodup Hin Ht; simpl.
  - by apply elem_of_nil in Hin.
  - rewrite fmap_cons in Hnodup. apply NoDup_cons in Hnodup as [Hfresh Hnodup].
    apply elem_of_cons in Hin as [<-|Hin].
    + simpl in Hfresh. rewrite fold_overwrite_other by done. by apply overwrite_same.
    + apply IH; [done..|]. rewrite overwrite_other; [done|].
      intros ->. apply Hfresh. apply list_elem_of_fmap. by exists (target.1, version).
Qed.

Lemma fold_overwrite_frame (targets : list (string * string)) (NoDupT : NoDup targets.*1)
    (deps : option (gmap string string)) :
  onlyOverwrites targets deps (fold_left overwrite targets <$> deps).
Proof.
  destruct deps as [d|]; simpl; [|done].
  split; [apply fold_overwrite_dom|]. split; [|split].
  - intros name Hne. destruct (decide (name ∈ targets.*1)) as [Hin|Hout].
    + split; [done|]. apply elem_of_dom. rewrite <- (fold_overwrite_dom targets d).
      apply elem_of_dom. destruct (fold_left overwrite targets d !! name) eqn:E1; [by eauto|].
      destruct (d !! name) eqn:E2; [|done].
      assert (name ∈ dom d) as Hd by (apply elem_of_dom; by eauto).
      rewrite <- (fold_overwrite_dom targets d) in Hd. apply elem_of_dom in Hd.
      rewrite E1 in Hd. by destruct Hd.
    + by rewrite fold_overwrite_other in Hne.
  - apply fold_overwrite_other.
  - intros name version. by apply fold_overwrite_target.
Qed.

Lemma updatedDeps_overwrite (deps : option (gmap string string)) (target : string * string) :
  React18.updatedDeps deps target.1 target.2 = (fun d => overwrite d target) <$> deps.
Proof.
  destruct deps as [d|]; simpl; [|done]. unfold overwrite. by destruct (truthy (d !! target.1)).
Qed.

Lemma fold_updateGroups (targets : list (string * string)) (pkg : PackageJson) :
  fold_left updateGroups targets pkg
  = React18.setDeps pkg
      (fold_left overwrite targets <$> dependencies pkg)
      (fold_left overwrite targets <$> devDependencies pkg)
      (fold_left overwrite targets <$> peerDependencies pkg).
Proof.
  revert pkg. induction targets as [|target targets IH]; intros pkg; simpl.
  - destruct pkg as [[] [] [] ? ?]; done.
  - rewrite IH. unfold updateGroups, React18.setDeps. simpl.
    rewrite !updatedDeps_overwrite.
    by destruct (dependencies pkg), (devDependencies pkg), (peerDependencies pkg).
Qed.

Lemma updateDeps_run (deps : option (gmap string string)) (name version : string)
    (w : World) :
  exists t,
    React18.updateDeps deps name version w
    = (Ret (React18.updatedDeps deps name version),
       mkWorld (fs w) (asked w) (trace w ++ t))
    /\ forallb quiet t = true.
Proof.
  unfold React18.updateDeps, React18.updatedDeps. destruct deps as [d|].
  - destruct (truthy (d !! name)).
    + by eexists [ _ ].
    + exists []. by rewrite <- world_eta.
  - exists []. by rewrite <- world_eta.
Qed.

Lemma updateCoreReactDeps_run (pkg : PackageJson) (w : World) :
  packageJson (fs w) = Parsed pkg ->
  exists t,
    React18.updateCoreReactDeps w
    = (Ret tt,
       mkWorld (mkFS (Parsed (fold_left updateGroups React18.TARGET_VERSIONS pkg))
                     (node_modules (fs w)) (entries (fs w)))
               (asked w) (trace w ++ t))
    /\ forallb (fun e => negb (isPrompt e)) t = true.
Proof.
  intros Hpkg. unfold React18.updateCoreReactDeps, bind at 1.
  rewrite (loadPackageJson_parsed pkg w Hpkg). unfold bind at 1.
  destruct (foldM_pure
              (fun pkg '(name, version) =>
                 deps <- React18.updateDeps (dependencies pkg) name version ;;
                 devDeps <- React18.updateDeps (devDependencies pkg) name version ;;
                 peerDeps <- React18.updateDeps (peerDependencies pkg) name version ;;
                 ret (React18.setDeps pkg deps devDeps peerDeps))
              (fun _ => updateGroups) quiet)
    with (l := React18.TARGET_VERSIONS) (b := pkg) (w := w) as (t & -> & Ht).
  - intros b [name version] w'. unfold bind, ret, updateGroups.
    destruct (updateDeps_run (dependencies b) name version w') as (t1 & -> & Ht1).
    destruct (updateDeps_run (devDependencies b) name version
                (mkWorld (fs w') (asked w') (trace w' ++ t1))) as (t2 & -> & Ht2).
    cbn [fs asked trace].
    destruct (updateDeps_run (peerDependencies b) name version
                (mkWorld (fs w') (asked w') ((trace w' ++ t1) ++ t2))) as (t3 & -> & Ht3).
    cbn [fs asked trace].
    exists (t1 ++ t2 ++ t3)%list.
    by rewrite !app_assoc, !forallb_app, Ht1, Ht2, Ht3.
  - eexists (t ++ [ _; _ ])%list. split.
    + unfold React18.savePackageJson, bind, getFS, putFS, log, emit. simpl.
      by rewrite <- !app_assoc.
    + rewrite forallb_app. simpl. rewrite andb_true_r.
      rewrite forallb_forall in Ht |- *. intros e He. specialize (Ht e He).
      unfold quiet in Ht. by apply andb_true_iff in Ht as [? _].
Qed.

(** C9: [updateCoreReactDeps] rewrites the manifest so that each dependency
    group is there exactly when it was, with the same keys; an entry differs
    from before only under one of the four target names that was already a
    key of that group; every entry under another name is as before; and
    nothing else in the manifest changes. *)
Theorem updateCoreReactDeps_only_overwrites (pkg : PackageJson) (w : World) :
  packageJson (fs w) = Parsed pkg ->
  exists pkg' w',
    React18.updateCoreReactDeps w = (Ret tt, w')
    /\ packageJson (fs w') = Parsed pkg'
    /\ onlyOverwrites React18.TARGET_VERSIONS (dependencies pkg) (dependencies pkg')
    /\ onlyOverwrites React18.TARGET_VERSIONS (devDependencies pkg) (devDependencies pkg')
    /\ onlyOverwrites React18.TARGET_VERSIONS (peerDependencies pkg) (peerDependencies pkg')
    /\ engines pkg' = engines pkg
    /\ otherFields pkg' = otherFields pkg.
Proof.
  intros Hpkg. destruct (updateCoreReactDeps_run pkg w Hpkg) as (t & Hrun & _).
  eexists _, _. split; [exact Hrun|]. split; [reflexivity|].
  rewrite fold_updateGroups. simpl.
  assert (NoDup React18.TARGET_VERSIONS.*1) as Hnodup.
  { apply NoDup_ListNoDup. repeat constructor; simpl; intuition discriminate. }
  repeat split; try by apply fold_overwrite_frame.
Qed.

Lemma updateCoreReactDeps_only_overwrites_witness :
  packageJson (fs (start (widgetFS widgetLib17))) = Parsed widgetProject
  /\ exists pkg' w',
       React18.updateCoreReactDeps (start (widgetFS widgetLib17)) = (Ret tt, w')
       /\ packageJson (fs w') = Parsed pkg'
       /\ onlyOverwrites React18.TARGET_VERSIONS (dependencies widgetProject) (dependencies pkg')
       /\ onlyOverwrites React18.TARGET_VERSIONS (devDependencies widgetProject)
            (devDependencies pkg')
       /\ onlyOverwrites React18.TARGET_VERSIONS (peerDependencies widgetProject)
            (peerDependencies pkg')
       /\ engines pkg' = engines widgetProject
       /\ otherFields pkg' = otherFields widgetProject.
Proof.
  split; [reflexivity|].
  exact (updateCoreReactDeps_only_overwrites widgetProject (start (widgetFS widgetLib17))
           eq_refl).
Defined.

Lemma fold_overwrite_falsy (targets : list (string * string)) (d : gmap string string)
    (name : string) :
  truthy (d !! name) = false -> truthy (fold_left overwrite targets d !! name) = false.
Proof.
  revert d. induction targets as [|target targets IH]; intros d Ht; simpl; [done|].
  apply IH. destruct (decide (name = target.1)) as [->|Hne].
  - unfold overwrite. by rewrite Ht.
  - by rewrite overwrite_other.
Qed.

(** After the update the renderer is never declared at a range that starts
    with ["18."], so the allow-list of the second gate cannot apply to the
    manifest that [updateCoreReactDeps] has just written. *)
Lemma renderer_never_ignored_after_update (pkg : PackageJson) :
  React18.ignored (fold_left updateGroups React18.TARGET_VERSIONS pkg) "react-test-renderer"
  = false.
Proof.
  assert (forall d,
            React18.declares18 (Some (fold_left overwrite React18.TARGET_VERSIONS d))
              "react-test-renderer" = false) as H.
  { intros d. unfold React18.declares18.
    destruct (truthy (d !! "react-test-renderer")) eqn:Ht.
    - rewrite (fold_overwrite_target _ d "react-test-renderer" "^18.3.1"); [done| |by do 3 right; left|done].
      apply NoDup_ListNoDup. repeat constructor; simpl; intuition discriminate.
    - apply (fold_overwrite_falsy React18.TARGET_VERSIONS) in Ht.
      destruct (fold_left overwrite React18.TARGET_VERSIONS d !! "react-test-renderer");
        [by rewrite Ht | done]. }
  rewrite fold_updateGroups. unfold React18.ignored, React18.setDeps.
  cbn [dependencies devDependencies].
  destruct (dependencies pkg), (devDependencies pkg); cbn [fmap option_fmap option_map];
    by rewrite ?H, ?andb_false_r.
Qed.

(** * Rules for whole runs *)

Lemma finishes_bind {A B} (good : Event -> bool) (m : M A) (k : A -> M B) :
  preserves (grows (fun e => negb (good e))) m ->
  (forall a, finishes good (k a)) ->
  finishes good (bind m k).
Proof.
  intros Hm Hk w. unfold bind. destruct (Hm w) as [(t1 & Ht1 & Hq) Hcode].
  assert (existsb good t1 = false) as Hnone.
  { apply not_true_is_false. intros (e & He & Hg)%existsb_exists.
    rewrite forallb_forall in Hq. specialize (Hq e He). by rewrite Hg in Hq. }
  destruct (m w) as [[a|code| |] w1]; simpl in *.
  - destruct (Hk a w1) as (t2 & Ht2 & Hiff). exists (t1 ++ t2)%list.
    rewrite Ht2, Ht1, <- app_assoc, existsb_app, Hnone. done.
  - exists t1. split; [done|]. rewrite Hnone.
    split; [split; [done | by intros [? ?]] | intros c [= <-]; by apply Hcode].
  - exists t1. split; [done|]. rewrite Hnone.
    split; [split; [done | by intros [? ?]] | done].
  - exists t1. split; [done|]. rewrite Hnone.
    split; [split; [done | by intros [? ?]] | done].
Qed.

Lemma diesOn_quiet {A} (bad : Event -> bool) (m : M A) :
  preserves (grows (fun e => negb (bad e))) m -> diesOn bad m.
Proof.
  intros Hm w. destruct (Hm w) as [(t & Ht & Hq) _]. exists t. split; [done|].
  intros (e & He & Hb)%existsb_exists.
  rewrite forallb_forall in Hq. specialize (Hq e He). by rewrite Hb in Hq.
Qed.

Lemma diesOn_bind {A B} (bad : Event -> bool) (m : M A) (k : A -> M B) :
  diesOn bad m -> (forall a, diesOn bad (k a)) -> diesOn bad (bind m k).
Proof.
  intros Hm Hk w. unfold bind. destruct (Hm w) as (t1 & Ht1 & Hdie).
  destruct (m w) as [[a|code| |] w1]; simpl in *.
  - destruct (Hk a w1) as (t2 & Ht2 & Hdie2). exists (t1 ++ t2)%list.
    rewrite Ht2, Ht1, <- app_assoc. split; [done|].
    rewrite existsb_app. intros [H|H]%orb_true_iff; [by specialize (Hdie H) | by apply Hdie2].
  - exists t1. split; [done|]. intros H. specialize (Hdie H). by injection Hdie as ->.
  - exists t1. split; [done|]. intros H. by specialize (Hdie H).
  - exists t1. split; [done|]. intros H. by specialize (Hdie H).
Qed.

Lemma diesOn_try_catch {A} (bad : Event -> bool) (m handler : M A) :
  diesOn bad m -> diesOn bad handler -> diesOn bad (try_catch m handler).
Proof.
  intros Hm Hh w. unfold try_catch. destruct (Hm w) as (t1 & Ht1 & Hdie).
  destruct (m w) as [[a|code| |] w1]; simpl in *;
    [by exists t1|by exists t1| |by exists t1].
  destruct (Hh w1) as (t2 & Ht2 & Hdie2). exists (t1 ++ t2)%list.
  rewrite Ht2, Ht1, <- app_assoc. split; [done|].
  rewrite existsb_app. intros [H|H]%orb_true_iff; [by specialize (Hdie H) | by apply Hdie2].
Qed.

Lemma diesOn_emit_exit {A} (bad : Event -> bool) (e : Event) :
  diesOn bad (emit e ;; @exit A 1).
Proof. intros w. by eexists [ _ ]. Qed.

(** A child process whose failure is answered by [process.exit(1)]. *)
Lemma diesOn_exec_or_exit {A} (bad : Event -> bool) (env : Env) (command : string)
    (k : M A) (e : Event) :
  bad (EvExec command true) = false ->
  diesOn bad k ->
  diesOn bad (try_catch (execSync env command ;; k) (emit e ;; exit 1)).
Proof.
  intros Hok Hk w. unfold try_catch, bind, execSync.
  destruct (exec env command (fs w)) as [[] fs1]; simpl.
  - destruct (Hk (mkWorld fs1 (asked w) (trace w ++ [ EvExec command true ])))
      as (t & Ht & Hdie).
    destruct (k _) as [[a|code| |] w1]; simpl in *.
    + exists ([ EvExec command true ] ++ t)%list. rewrite Ht, <- app_assoc.
      split; [done|]. simpl. by rewrite Hok.
    + exists ([ EvExec command true ] ++ t)%list. rewrite Ht, <- app_assoc.
      split; [done|]. simpl. by rewrite Hok.
    + eexists ([ EvExec command true ] ++ t ++ [ _ ])%list. rewrite Ht, <- !app_assoc.
      done.
    + exists ([ EvExec command true ] ++ t)%list. rewrite Ht, <- app_assoc.
      split; [done|]. simpl. by rewrite Hok.
  - unfold emit, exit. simpl. eexists [ _; _ ]. by rewrite <- app_assoc.
Qed.

(** The shape of [runCommand]. *)
Lemma diesOn_exec_else_exit (bad : Event -> bool) (env : Env) (command : string)
    (e : Event) :
  bad (EvExec command true) = false ->
  diesOn bad (try_catch (execSync env command) (emit e ;; exit 1)).
Proof.
  intros Hok w. unfold try_catch, bind, execSync, emit, exit.
  destruct (exec env command (fs w)) as [[] fs1]; simpl.
  - eexists [ _ ]. split; [done|]. simpl. by rewrite Hok.
  - eexists [ _; _ ]. by rewrite <- app_assoc.
Qed.

Lemma writesFirst_bind {A B} (marker : Event -> bool) (m : M A) (k : A -> M B) :
  preserves (grows (fun e => negb (marker e))) m ->
  (forall a, writesFirst marker (k a)) ->
  writesFirst marker (bind m k).
Proof.
  intros Hm Hk w. unfold bind. destruct (Hm w) as [(t & Ht & Hq) _].
  destruct (m w) as [[a|code| |] w1]; simpl in *.
  - destruct (Hk a w1) as (t1 & t2 & Ht12 & H1 & H2). exists (t ++ t1)%list, t2.
    rewrite Ht12, Ht, <- !app_assoc, forallb_app, Hq, H1. done.
  - exists t, []. by rewrite app_nil_r.
  - exists t, []. by rewrite app_nil_r.
  - exists t, []. by rewrite app_nil_r.
Qed.

Lemma writesFirst_late {A} (marker : Event -> bool) (m : M A) :
  preserves (grows (fun e => negb (isWrite e))) m -> writesFirst marker m.
Proof. intros Hm w. destruct (Hm w) as [(t & Ht & Hq) _]. by exists [], t. Qed.

Lemma stepAfter_app (step : string) (t1 t2 : list Event) :
  stepAfter step (t1 ++ t2) = stepAfter (stepAfter step t1) t2.
Proof. apply fold_left_app. Qed.

Lemma writesIn_app (allowed : string -> bool) (step : string) (t1 t2 : list Event) :
  writesIn allowed step (t1 ++ t2)
  = writesIn allowed step t1 && writesIn allowed (stepAfter step t1) t2.
Proof.
  revert step. induction t1 as [|e t1 IH]; intros step; [done|].
  destruct e as [|[] title| | | | |]; simpl; by rewrite IH, ?andb_assoc.
Qed.

Lemma writesIn_steady (allowed : string -> bool) (step : string) (t : list Event) :
  forallb (steady (allowed step)) t = true ->
  writesIn allowed step t = true /\ stepAfter step t = step.
Proof.
  induction t as [|e t IH]; [done|]. simpl. intros [He Ht]%andb_true_iff.
  destruct (IH Ht) as [IH1 IH2].
  destruct e as [|[] title| | | | |]; simpl in *; try done; by rewrite ?He, ?IH1.
Qed.

Lemma writesIn_no_write (allowed : string -> bool) (step : string) (t : list Event) :
  forallb (fun e => negb (isWrite e)) t = true -> writesIn allowed step t = true.
Proof.
  revert step. induction t as [|e t IH]; intros step; [done|]. simpl.
  intros [He Ht]%andb_true_iff.
  destruct e as [|[] title| | | | |]; simpl in *; try done;
    by rewrite ?orb_true_r, ?IH.
Qed.

Lemma writesIn_lookup (allowed : string -> bool) (step : string) (t : list Event)
    (i : nat) (e : Event) :
  writesIn allowed step t = true -> t !! i = Some e -> isWrite e = true ->
  allowed (stepAfter step (take i t)) = true.
Proof.
  revert step i. induction t as [|e' t IH]; intros step i Hin Hi He; [done|].
  destruct i as [|i].
  - simpl in Hi. injection Hi as ->. simpl.
    destruct e as [|[] title| | | | |]; simpl in *; try done;
      apply andb_true_iff in Hin as [Hin _]; by rewrite orb_false_r in Hin.
  - simpl in Hi. cbn [take stepAfter fold_left].
    destruct e' as [|[] title| | | | |]; simpl in Hin;
      try (apply andb_true_iff in Hin as [_ Hin]); by apply (IH _ i).
Qed.

Lemma writesOnlyIn_box {B} (allowed : string -> bool) (step title : string) (k : M B) :
  writesOnlyIn allowed title k ->
  writesOnlyIn allowed step (React18.stepBox title ;; k).
Proof.
  intros Hk w. unfold React18.stepBox, bind, emit. simpl.
  destruct (Hk (mkWorld (fs w) (asked w) (trace w ++ [ EvBox Info title ])))
    as (t & Ht & Hin). simpl in Ht.
  exists ([ EvBox Info title ] ++ t)%list. by rewrite Ht, <- app_assoc.
Qed.

Lemma writesOnlyIn_steady {A B} (allowed : string -> bool) (step : string)
    (m : M A) (k : A -> M B) :
  preserves (grows (steady (allowed step))) m ->
  (forall a, writesOnlyIn allowed step (k a)) ->
  writesOnlyIn allowed step (bind m k).
Proof.
  intros Hm Hk w. unfold bind. destruct (Hm w) as [(t & Ht & Hsteady) _].
  apply writesIn_steady in Hsteady as [Hin Hstep].
  destruct (m w) as [[a|code| |] w1]; simpl in *; [|by exists t..].
  destruct (Hk a w1) as (t' & Ht' & Hin'). exists (t ++ t')%list.
  by rewrite Ht', Ht, <- app_assoc, writesIn_app, Hin, Hstep.
Qed.

Lemma writesOnlyIn_late {A} (allowed : string -> bool) (step : string) (m : M A) :
  preserves (grows (fun e => negb (isWrite e))) m -> writesOnlyIn allowed step m.
Proof.
  intros Hm w. destruct (Hm w) as [(t & Ht & Hq) _]. exists t.
  split; [done|]. by apply writesIn_no_write.
Qed.

Lemma written_app (init : File PackageJson) (t1 t2 : list Event) :
  written init (t1 ++ t2) = written (written init t1) t2.
Proof. apply fold_left_app. Qed.

#[local] Instance tracked_preorder : PreOrder tracked.
Proof.
  split.
  - intros w. exists []. by rewrite app_nil_r.
  - intros w1 w2 w3 (t1 & H1 & Hf1) (t2 & H2 & Hf2). exists (t1 ++ t2)%list.
    by rewrite H2, H1, <- app_assoc, written_app, <- Hf1, Hf2.
Qed.

Lemma tracked_emit (e : Event) : isWriteManifest e = false -> preserves tracked (emit e).
Proof.
  intros He w. split; [|done]. exists [ e ]. split; [done|]. simpl.
  by destruct e.
Qed.

Lemma tracked_save (data : PackageJson) : preserves tracked (React18.savePackageJson data).
Proof.
  intros w. unfold React18.savePackageJson, bind, getFS, putFS, log, emit. simpl.
  split; [|done]. eexists [ _; _ ]. simpl. split; [by rewrite <- app_assoc | done].
Qed.

Lemma tracked_execSync (env : Env) (command : string) :
  keepsManifest env -> preserves tracked (execSync env command).
Proof.
  intros Hkeep w. unfold execSync. specialize (Hkeep command (fs w)).
  destruct (exec env command (fs w)) as [ok fs1]. simpl in Hkeep.
  assert (tracked w (mkWorld fs1 (asked w) (trace w ++ [ EvExec command ok ]))).
  { by exists [ EvExec command ok ]. }
  by destruct ok.
Qed.

Lemma tracked_question (env : Env) (query : string) :
  preserves tracked (question env query).
Proof.
  intros w. unfold question. destruct (operator env (asked w)) as [line|].
  - split; [|done]. by eexists [ _; _ ].
  - split; [|done]. by eexists [ _ ].
Qed.

Lemma waits_bind {A B} (env : Env) (m : M A) (k : A -> M B) :
  waitsAtQuestion env m -> (forall a, waitsAtQuestion env (k a)) ->
  waitsAtQuestion env (bind m k).
Proof.
  intros Hm Hk w. unfold bind. specialize (Hm w).
  destruct (m w) as [[a|code| |] w1]; simpl in *;
    [apply Hk | done | done | intros _; by apply Hm].
Qed.

Lemma waits_try_catch {A} (env : Env) (m handler : M A) :
  waitsAtQuestion env m -> waitsAtQuestion env handler ->
  waitsAtQuestion env (try_catch m handler).
Proof.
  intros Hm Hh w. unfold try_catch. specialize (Hm w).
  destruct (m w) as [[a|code| |] w1]; simpl in *; [done | done | apply Hh | exact Hm].
Qed.

Lemma waits_settled {A} (env : Env) (m : M A) :
  (forall w, (m w).1 <> Pending) -> waitsAtQuestion env m.
Proof. intros Hm w H. by destruct (Hm w). Qed.

Lemma waits_question (env : Env) (query : string) :
  waitsAtQuestion env (question env query).
Proof.
  intros w. unfold question. destruct (operator env (asked w)) as [line|] eqn:Hline;
    simpl; [done|].
  intros _. split; [done|]. exists query. by rewrite last_snoc.
Qed.

Lemma waits_execSync (env env' : Env) (command : string) :
  waitsAtQuestion env (execSync env' command).
Proof.
  apply waits_settled. intros w. unfold execSync.
  by destruct (exec env' command (fs w)) as [[] fs1].
Qed.

Lemma waits_foldM {A B} (env : Env) (f : B -> A -> M B) (l : list A) (b : B) :
  (forall b x, waitsAtQuestion env (f b x)) -> waitsAtQuestion env (foldM f l b).
Proof.
  intros Hf. revert b. induction l as [|x l IH]; intros b; simpl.
  - by apply waits_settled.
  - apply waits_bind; [apply Hf | apply IH].
Qed.

Lemma waits_forEach {A} (env : Env) (l : list A) (f : A -> M unit) :
  (forall x, waitsAtQuestion env (f x)) -> waitsAtQuestion env (forEach l f).
Proof. intros Hf. apply waits_foldM. intros _ x. apply Hf. Qed.

(** * Footprints of the steps *)

Ltac unfold_steps :=
  unfold check, React18.migrate, React18.ensureNCU, React18.updateCoreReactDeps,
    React18.updateRplanDepsWithNCU, React18.syncRplanPeerDepsToInstalled,
    React18.checkRplanPeerDepsForReact17Prompt,
    React18.checkNonRplanPeerDepsForReact17Prompt, React18.rplanIssues,
    React18.nonRplanIssues, React18.checkInstalled, React18.promptContinue,
    React18.printMigrationSuccess, React18.logIssue, React18.updateDeps,
    React18.loadPackageJson, React18.savePackageJson, React18.stepBox,
    Node22.runMigration, Node22.verifyNodeCompatibility,
    Node22.updateNodeVersionInPackageJson, Node22.updateNodeVersionInGitHubActions,
    Node22.updateTypesNode, Node22.installDependencies, Node22.updateRplanDependency,
    Node22.promptUpdateRplan, Node22.checkAndUpdateDockerfiles, Node22.runCommand,
    Node22.getYamlFilesInDir, Node22.findDockerfiles, Node22.readFileSync,
    Node22.writeFileSync, Node22.printSuccess, Node22.printError, Node22.printInfo,
    log.

Ltac preorder := lazymatch goal with |- PreOrder _ => apply _ | _ => idtac end.

Ltac footprint :=
  repeat
    (cbv beta;
     lazymatch goal with
     | |- preserves _ (bind _ _) => apply preserves_bind; preorder; [|intros]
     | |- preserves _ (try_catch _ _) => apply preserves_try_catch; preorder
     | |- preserves _ (ret _) => apply preserves_ret; preorder
     | |- preserves _ (exit _) => apply preserves_exit; preorder
     | |- preserves _ throw => apply preserves_throw; preorder
     | |- preserves _ getFS => apply preserves_getFS; preorder
     | |- preserves _ (foldM _ _ _) => apply preserves_foldM; preorder; intros
     | |- preserves _ (forEach _ _) => apply preserves_forEach; preorder; intros
     | |- preserves (grows _) (emit _) => apply grows_emit; reflexivity
     | |- preserves (grows _) (putFS _) => apply grows_putFS
     | |- preserves (grows _) (execSync _ _) => apply grows_execSync; intros []; reflexivity
     | |- preserves (grows _) (question _ _) =>
         apply grows_question; [reflexivity | intros; reflexivity]
     | |- preserves sameFS (emit _) => apply sameFS_emit
     | |- preserves sameFS (question _ _) => apply sameFS_question
     | |- preserves sameAsked (emit _) => apply sameAsked_emit
     | |- preserves sameAsked (putFS _) => apply sameAsked_putFS
     | |- preserves sameAsked (execSync _ _) => apply sameAsked_execSync
     | |- preserves tracked (emit _) => apply tracked_emit; reflexivity
     | |- preserves tracked (React18.savePackageJson _) => apply tracked_save
     | |- preserves tracked (execSync _ _) => apply tracked_execSync; assumption
     | |- preserves tracked (question _ _) => apply tracked_question
     | |- preserves _ (match ?x with _ => _ end) => destruct x
     end).

Ltac solve_footprint := unfold_steps; footprint.

Ltac waiting :=
  repeat
    (cbv beta;
     lazymatch goal with
     | |- waitsAtQuestion _ (bind _ _) => apply waits_bind; [|intros]
     | |- waitsAtQuestion _ (try_catch _ _) => apply waits_try_catch
     | |- waitsAtQuestion _ (question _ _) => apply waits_question
     | |- waitsAtQuestion _ (execSync _ _) => apply waits_execSync
     | |- waitsAtQuestion _ (foldM _ _ _) => apply waits_foldM; intros
     | |- waitsAtQuestion _ (forEach _ _) => apply waits_forEach; intros
     | |- waitsAtQuestion _ (match ?x with _ => _ end) => destruct x
     | |- waitsAtQuestion _ _ => apply waits_settled; intros ?; simpl; discriminate
     end).

Lemma check_keeps_files (env : Env) (g : Gate) : preserves sameFS (check env g).
Proof. destruct g; solve_footprint. Qed.

Lemma check_writes_nothing (env : Env) (g : Gate) :
  preserves (grows (fun e => negb (isWrite e))) (check env g).
Proof. destruct g; solve_footprint. Qed.

Ltac dies :=
  cbv beta;
  first
    [ solve [ apply diesOn_quiet; solve_footprint ]
    | apply diesOn_emit_exit
    | apply diesOn_exec_or_exit; [ reflexivity | dies ]
    | apply diesOn_exec_else_exit; reflexivity
    | apply diesOn_bind; [ dies | intros; dies ]
    | apply diesOn_try_catch; [ dies | dies ]
    | lazymatch goal with
      | |- diesOn _ (match ?x with _ => _ end) => destruct x; dies
      end ].

(** * The run of the React script *)

Lemma migrate_writesFirst (env : Env) :
  writesFirst (isStepBox gate1Title) (React18.migrate env).
Proof.
  unfold React18.migrate.
  do 10 (apply writesFirst_bind; [ solve [ solve_footprint ] | intros _ ]).
  apply writesFirst_late. solve_footprint.
Qed.

Lemma migrate_writesOnlyIn (env : Env) :
  writesOnlyIn saving EmptyString (React18.migrate env).
Proof.
  unfold React18.migrate.
  apply writesOnlyIn_box.
  apply writesOnlyIn_steady; [ solve [ solve_footprint ] | intros _ ].
  do 4 (apply writesOnlyIn_box;
        apply writesOnlyIn_steady; [ solve [ solve_footprint ] | intros _ ]).
  apply writesOnlyIn_box. apply writesOnlyIn_late. solve_footprint.
Qed.

Lemma migrate_tracked (env : Env) :
  keepsManifest env -> preserves tracked (React18.migrate env).
Proof.
  intros Hkeep.
  unfold check, React18.migrate, React18.ensureNCU, React18.updateCoreReactDeps,
    React18.updateRplanDepsWithNCU, React18.syncRplanPeerDepsToInstalled,
    React18.checkRplanPeerDepsForReact17Prompt,
    React18.checkNonRplanPeerDepsForReact17Prompt, React18.rplanIssues,
    React18.nonRplanIssues, React18.checkInstalled, React18.promptContinue,
    React18.printMigrationSuccess, React18.logIssue, React18.updateDeps,
    React18.loadPackageJson, React18.stepBox, log.
  footprint.
Qed.

Lemma install_finishes (env : Env) :
  finishes (isStepBox completeTitle)
    (try_catch
       (execSync env "npm install" ;;
        React18.stepBox "Migration Complete" ;;
        React18.printMigrationSuccess)
       (log Error "npm install failed." ;;
        exit 1)).
Proof.
  intros w. unfold try_catch, bind, execSync.
  destruct (exec env "npm install" (fs w)) as [[] fs1]; simpl.
  - eexists [ _; _; _; _ ]. rewrite <- !app_assoc. split; [done|].
    split; [split; [by eexists | done] | done].
  - eexists [ _; _ ]. rewrite <- !app_assoc. split; [done|].
    split; [split; [done | by intros [? ?]] | by intros ? [= <-]].
Qed.

Lemma migrate_finishes (env : Env) :
  finishes (isStepBox completeTitle) (React18.migrate env).
Proof.
  unfold React18.migrate.
  do 16 (apply finishes_bind; [ solve [ solve_footprint ] | intros _ ]).
  apply install_finishes.
Qed.

Lemma migrate_diesOn (env : Env) :
  diesOn (fun e => isAbort e || isFailed "npm install" e) (React18.migrate env).
Proof. unfold_steps. dies. Qed.

Lemma migrate_waits (env : Env) : waitsAtQuestion env (React18.migrate env).
Proof. unfold_steps. waiting. Qed.

(** C6 (as amended): in every run of the React migration the script writes
    nothing but the manifest, and it writes it only in the two steps that
    update the core dependencies and synchronise the managed peers; each of
    these writes comes before the first gate starts; neither gate writes
    anything or changes the file system; and whenever no child process
    changes the manifest, the manifest on disk is the one of the last such
    write, or the one the run started with if there was none. So the
    manifest is written before the gates decide, by the steps of [migrate]
    alone, and never after a gate has returned. *)
Theorem manifest_written_before_the_gates (env : Env) (fs0 : FS) :
  (forall i e,
     trace (React18.migrate env (start fs0)).2 !! i = Some e ->
     isWrite e = true ->
     isWriteManifest e = true
     /\ (stepAfter EmptyString (take i (trace (React18.migrate env (start fs0)).2))
         = updateTitle
         \/ stepAfter EmptyString (take i (trace (React18.migrate env (start fs0)).2))
            = syncTitle))
  /\ (forall i j data,
        trace (React18.migrate env (start fs0)).2 !! i = Some (EvWriteManifest data) ->
        trace (React18.migrate env (start fs0)).2 !! j = Some (EvBox Info gate1Title) ->
        i < j)
  /\ (forall g w,
        fs (check env g w).2 = fs w
        /\ exists t,
             trace (check env g w).2 = (trace w ++ t)%list
             /\ forallb (fun e => negb (isWrite e)) t = true)
  /\ (keepsManifest env ->
      packageJson (fs (React18.migrate env (start fs0)).2)
      = written (packageJson fs0) (trace (React18.migrate env (start fs0)).2)).
Proof.
  split; [|split; [|split]].
  - destruct (migrate_writesOnlyIn env (start fs0)) as (t & Ht & Hin).
    simpl in Ht. rewrite Ht. intros i e Hi He. split.
    + assert (preserves (grows (fun e => negb (isWrite e) || isWriteManifest e))
                (React18.migrate env)) as Hgrows by solve_footprint.
      destruct (Hgrows (start fs0)) as [(t' & Ht' & Hall) _]. simpl in Ht'.
      rewrite Ht in Ht'. subst t'. rewrite forallb_forall in Hall.
      apply list_elem_of_lookup_2, list_elem_of_In, Hall in Hi.
      by rewrite He in Hi.
    + pose proof (writesIn_lookup _ _ _ _ _ Hin Hi He) as Hstep.
      unfold saving, arrayIncludes in Hstep. cbn [existsb] in Hstep.
      rewrite orb_false_r in Hstep.
      apply orb_true_iff in Hstep as [Hstep|Hstep]; apply String.eqb_eq in Hstep;
        [by left | by right].
  - destruct (migrate_writesFirst env (start fs0)) as (t1 & t2 & Ht & H1 & H2).
    simpl in Ht. rewrite Ht. intros i j data Hi Hj.
    rewrite forallb_forall in H1, H2.
    apply lookup_app_Some in Hi as [Hi|[_ Hi]].
    + apply lookup_app_Some in Hj as [Hj|[Hj _]].
      * apply list_elem_of_lookup_2, list_elem_of_In, H1 in Hj. by cbv in Hj.
      * apply lookup_lt_Some in Hi. lia.
    + by apply list_elem_of_lookup_2, list_elem_of_In, H2 in Hi.
  - intros g w. split; [apply check_keeps_files | apply check_writes_nothing].
  - intros Hkeep. destruct (migrate_tracked env Hkeep (start fs0)) as [(t & Ht & Hfile) _].
    simpl in Ht, Hfile. by rewrite Ht.
Qed.

(** Child processes that leave the files alone keep the manifest. *)
Example calm_children_keep_the_manifest (answer : string) : keepsManifest (calmEnv answer).
Proof. by intros command fs0. Qed.

(** C6 (as stated) fails: with an operator who declines, the run is ended by
    the first gate, which therefore never lets the run proceed, and by then
    the manifest has been written and [react] moved to ["^18.3.1"]. *)
Lemma manifest_written_before_gate_aborts :
  (React18.migrate (calmEnv "n") (start rplanFS)).1 = Exit 1
  /\ last (trace (React18.migrate (calmEnv "n") (start rplanFS)).2)
     = Some (EvLog Error abortRplan)
  /\ (exists data,
        trace (React18.migrate (calmEnv "n") (start rplanFS)).2 !! 8
        = Some (EvWriteManifest data))
  /\ trace (React18.migrate (calmEnv "n") (start rplanFS)).2 !! 17
     = Some (EvBox Info gate1Title)
  /\ default ∅ (dependencies rplanProject) !! "react" = Some "^17.0.2"
  /\ exists data,
       packageJson (fs (React18.migrate (calmEnv "n") (start rplanFS)).2) = Parsed data
       /\ default ∅ (dependencies data) !! "react" = Some "^18.3.1".
Proof.
  split; [vm_compute; reflexivity|].
  split; [vm_compute; reflexivity|].
  split; [eexists; vm_compute; reflexivity|].
  split; [vm_compute; reflexivity|].
  split; [vm_compute; reflexivity|].
  eexists. split; vm_compute; reflexivity.
Qed.

Lemma bind_Ret {A B} (m : M A) (k : A -> M B) (w w' : World) (a : A) :
  m w = (Ret a, w') -> bind m k w = k a w'.
Proof. intros H. unfold bind. by rewrite H. Qed.

Lemma bind_Exit {A B} (m : M A) (k : A -> M B) (w w' : World) (code : Z) :
  m w = (Exit code, w') -> bind m k w = (Exit code, w').
Proof. intros H. unfold bind. by rewrite H. Qed.

Ltac run_emit :=
  erewrite bind_Ret by reflexivity; cbv beta; cbn [fs asked trace start app].

Lemma ensureNCU_absent (env : Env) (w : World) :
  staysAbsent env ->
  packageJson (fs w) = Missing ->
  exists o w' t,
    React18.ensureNCU env w = (o, w')
    /\ packageJson (fs w') = Missing
    /\ trace w' = (trace w ++ t)%list
    /\ forallb early t = true
    /\ (o = Ret tt
        \/ o = Exit 1
           /\ last t = Some (EvLog Error "Failed to install npm-check-updates globally.")).
Proof.
  intros Habsent Hmiss.
  unfold React18.ensureNCU, log, emit, bind, try_catch, execSync, exit, ret. simpl.
  pose proof (Habsent "ncu -v" (fs w) Hmiss) as H1.
  destruct (exec env "ncu -v" (fs w)) as [[] fs1]; simpl in *.
  - eexists _, _, [ _; _; _ ]. rewrite <- !app_assoc. repeat split; by eauto.
  - pose proof (Habsent "npm install -g npm-check-updates" fs1 H1) as H2.
    destruct (exec env "npm install -g npm-check-updates" fs1) as [[] fs2]; simpl in *.
    + eexists _, _, [ _; _; _; _; _ ]. rewrite <- !app_assoc. repeat split; by eauto.
    + eexists _, _, [ _; _; _; _; _ ]. rewrite <- !app_assoc. repeat split; by eauto.
Qed.

(** C7 (as amended): when [package.json] is absent and no child process
    creates one, the React run ends with code 1 during its second step, with
    nothing written, no gate reached and no install, its last message being
    an error; the Node script reports the absence, skips the update of the
    manifest and returns to [runMigration], which goes on. *)
Theorem missing_manifest_ends_the_react_run (env : Env) (fs0 : FS) :
  packageJson fs0 = Missing ->
  staysAbsent env ->
  (React18.migrate env (start fs0)).1 = Exit 1
  /\ forallb early (trace (React18.migrate env (start fs0)).2) = true
  /\ (exists msg,
        last (trace (React18.migrate env (start fs0)).2) = Some (EvLog Error msg))
  /\ (forall w,
        packageJson (fs w) = Missing ->
        Node22.updateNodeVersionInPackageJson env w
        = (Ret tt,
           mkWorld (fs w) (asked w)
             (trace w ++ [ EvLog Error "package.json not found." ]))).
Proof.
  intros Hmiss Habsent.
  assert (exists w' msg,
            React18.migrate env (start fs0) = (Exit 1, w')
            /\ forallb early (trace w') = true
            /\ last (trace w') = Some (EvLog Error msg)) as (w' & msg & -> & He & Hl).
  { unfold React18.migrate. do 3 run_emit.
    match goal with
    | |- context [bind (React18.ensureNCU env) _ ?w] =>
        destruct (ensureNCU_absent env w Habsent Hmiss)
          as (o & w1 & t & Hrun & Hmiss1 & Ht & He & [->|[-> Hl]])
    end; simpl in Ht.
    - erewrite bind_Ret by exact Hrun. run_emit.
      unfold React18.updateCoreReactDeps, React18.loadPackageJson.
      erewrite bind_Exit; [eexists _, _; split; [reflexivity|]|].
      2: { unfold bind, getFS, log, emit, exit. simpl. rewrite Hmiss1. reflexivity. }
      simpl. rewrite Ht. split.
      + rewrite <- !app_assoc. simpl. by rewrite forallb_app, He.
      + by rewrite last_snoc.
    - erewrite bind_Exit by exact Hrun. eexists _, _. split; [reflexivity|].
      rewrite Ht. split; [by simpl|].
      destruct t as [|e t] using rev_ind; [done|].
      rewrite last_snoc in Hl. injection Hl as ->.
      by rewrite !app_comm_cons, last_snoc. }
  repeat split; [done | by eexists |].
  intros w Hw.
  unfold Node22.updateNodeVersionInPackageJson, bind, getFS. simpl. by rewrite Hw.
Qed.

Lemma missing_manifest_ends_the_react_run_witness :
  packageJson bareFS = Missing
  /\ staysAbsent (calmEnv "y")
  /\ (React18.migrate (calmEnv "y") (start bareFS)).1 = Exit 1
  /\ last (trace (React18.migrate (calmEnv "y") (start bareFS)).2)
     = Some (EvLog Error "package.json not found in current directory.")
  /\ Node22.updateNodeVersionInPackageJson (calmEnv "y") (start bareFS)
     = (Ret tt, mkWorld bareFS 0 [ EvLog Error "package.json not found." ]).
Proof.
  split; [reflexivity|].
  assert (staysAbsent (calmEnv "y")) as Habsent by (intros command fs1 H; exact H).
  split; [exact Habsent|].
  destruct (missing_manifest_ends_the_react_run (calmEnv "y") bareFS eq_refl Habsent)
    as (Hexit & _ & _ & Hnode).
  split; [exact Hexit|]. split; [vm_compute; reflexivity|].
  exact (Hnode (start bareFS) eq_refl).
Defined.

(** C7 (as stated) fails for the Node script: without a [package.json] the
    run reports it, carries on through every later step, installs, and ends
    with code 0 after announcing that the migration is complete. *)
Lemma node_run_goes_on_without_manifest :
  packageJson bareFS = Missing
  /\ Node22.runMigration (calmEnv "no") (start bareFS)
     = (Ret tt,
        mkWorld bareFS 1
          [ EvLog Info "Node.js version v22.0.0 is compatible.";
            EvLog Error "package.json not found.";
            EvLog Info "No GitHub Actions YAML files found. Skipping update.";
            EvLog Info "Checking @types/node installation...";
            EvLog Error "Failed to check or update @types/node.";
            EvLog Info "Installing dependencies...";
            EvExec "npm install" true;
            EvQuestion "Do you want to update the @rplan dependency using ncu? (yes/no): ";
            EvAnswer "no";
            EvLog Info "Skipping @rplan dependency update.";
            EvLog Info "No Dockerfiles found in the project.";
            EvLog Success "Migration to Node.js 22 completed successfully!" ])
  /\ exitCode (Node22.runMigration (calmEnv "no") (start bareFS)).1 = 0%Z.
Proof. repeat split; vm_compute; reflexivity. Qed.

(** * The run of the Node script *)

Lemma runMigration_finishes (env : Env) :
  finishes (isLog Success Node22.completed) (Node22.runMigration env).
Proof.
  unfold Node22.runMigration.
  do 7 (apply finishes_bind; [ solve [ solve_footprint ] | intros _ ]).
  intros w. eexists [ _ ]. split; [done|]. split; [split; [by eexists | done] | done].
Qed.

Lemma runMigration_diesOn (env : Env) : diesOn isFailedExec (Node22.runMigration env).
Proof. unfold_steps. dies. Qed.

Lemma runMigration_waits (env : Env) : waitsAtQuestion env (Node22.runMigration env).
Proof. unfold_steps. waiting. Qed.

Lemma existsb_elem_of (p : Event -> bool) (t : list Event) :
  existsb p t = true <-> exists e, e ∈ t /\ p e = true.
Proof.
  rewrite existsb_exists. split; intros (e & He & Hp); exists e;
    (split; [by apply list_elem_of_In | done]).
Qed.

Lemma existsb_isStepBox (title : string) (t : list Event) :
  existsb (isStepBox title) t = true <-> EvBox Info title ∈ t.
Proof.
  rewrite existsb_elem_of. split.
  - intros (e & He & Hp). destruct e as [| [] title' | | | | |]; try done. simpl in Hp.
    by apply String.eqb_eq in Hp as ->.
  - intros He. exists (EvBox Info title). split; [done|]. simpl. by apply String.eqb_eq.
Qed.

Lemma existsb_isLog_Success (msg : string) (t : list Event) :
  existsb (isLog Success msg) t = true <-> EvLog Success msg ∈ t.
Proof.
  rewrite existsb_elem_of. split.
  - intros (e & He & Hp). destruct e as [[] msg'| | | | | |]; try done. simpl in Hp.
    by apply String.eqb_eq in Hp as ->.
  - intros He. exists (EvLog Success msg). split; [done|]. simpl. by apply String.eqb_eq.
Qed.

Lemma exitCode_zero (o : Outcome unit) :
  (forall code, o = Exit code -> code = 1%Z) ->
  exitCode o = 0%Z <-> o = Ret tt \/ o = Pending.
Proof.
  intros Hcode. destruct o as [[]|code| |]; simpl.
  - split; [by left | done].
  - rewrite (Hcode code eq_refl). split; [done | by intros [?|?]].
  - split; [done | by intros [?|?]].
  - split; [by right | done].
Qed.

(** C8 (as amended): a run completes, that is returns from its last step,
    exactly when the box [Migration Complete] of the React script, or the
    closing message of the Node script, has been printed. It ends with code
    0 exactly when it completes or when it is left waiting at a question
    that never gets a line, which is then the last thing printed. The React
    run ends with code 1 once a gate has announced that it aborts or once
    [npm install] has failed, and the Node run ends with code 1 once any
    child process has failed. Nothing is claimed for the [ncu] commands of
    the React script. *)
Theorem exit_code_of_a_run (env : Env) (fs0 : FS) :
  let react := React18.migrate env (start fs0) in
  let node := Node22.runMigration env (start fs0) in
  (EvBox Info completeTitle ∈ trace react.2 <-> react.1 = Ret tt)
  /\ (exitCode react.1 = 0%Z <-> react.1 = Ret tt \/ react.1 = Pending)
  /\ (forall e,
        e ∈ trace react.2 -> isAbort e || isFailed "npm install" e = true ->
        react.1 = Exit 1)
  /\ (react.1 = Pending ->
      operator env (pred (asked react.2)) = None
      /\ exists query, last (trace react.2) = Some (EvQuestion query))
  /\ (EvLog Success Node22.completed ∈ trace node.2 <-> node.1 = Ret tt)
  /\ (exitCode node.1 = 0%Z <-> node.1 = Ret tt \/ node.1 = Pending)
  /\ (forall command, EvExec command false ∈ trace node.2 -> node.1 = Exit 1)
  /\ (node.1 = Pending ->
      operator env (pred (asked node.2)) = None
      /\ exists query, last (trace node.2) = Some (EvQuestion query)).
Proof.
  intros react node. subst react node.
  destruct (migrate_finishes env (start fs0)) as (t & Ht & Hret & Hcode).
  destruct (runMigration_finishes env (start fs0)) as (t' & Ht' & Hret' & Hcode').
  simpl in Ht, Ht'.
  split; [|split; [|split; [|split; [|split; [|split; [|split]]]]]].
  - rewrite Ht, <- existsb_isStepBox, Hret. split; [by intros [[] ?] | by eexists].
  - by apply exitCode_zero.
  - destruct (migrate_diesOn env (start fs0)) as (t0 & Ht0 & Hdie). simpl in Ht0.
    rewrite Ht0. intros e He Hbad. apply Hdie, existsb_elem_of. by exists e.
  - apply migrate_waits.
  - rewrite Ht', <- existsb_isLog_Success, Hret'. split; [by intros [[] ?] | by eexists].
  - by apply exitCode_zero.
  - destruct (runMigration_diesOn env (start fs0)) as (t0 & Ht0 & Hdie). simpl in Ht0.
    rewrite Ht0. intros command He. apply Hdie, existsb_elem_of. by eexists.
  - apply runMigration_waits.
Qed.

(** C8 (as stated) fails: when the update of the managed packages by [ncu]
    fails, the React run logs it and still completes with code 0, and so it
    does when [ncu -v] fails as well and [ncu] has to be installed; and when
    the question of a gate gets no line, the run ends with code 0 although
    it has neither completed nor installed anything. *)
Lemma failed_ncu_is_not_fatal :
  trace (React18.migrate noUpdateEnv (start (widgetFS widgetLibBoth))).2 !! 12
  = Some (EvExec ("ncu " ++ doubleQuote ++ "/@rplan\/.*/" ++ doubleQuote ++ " -u") false)
  /\ trace (React18.migrate noUpdateEnv (start (widgetFS widgetLibBoth))).2 !! 13
     = Some (EvLog Error "Failed to update @rplan/* dependencies using ncu.")
  /\ EvBox Info completeTitle
     ∈ trace (React18.migrate noUpdateEnv (start (widgetFS widgetLibBoth))).2
  /\ exitCode (React18.migrate noUpdateEnv (start (widgetFS widgetLibBoth))).1 = 0%Z
  /\ trace (React18.migrate noNcuEnv (start (widgetFS widgetLibBoth))).2 !! 4
     = Some (EvExec "ncu -v" false)
  /\ exitCode (React18.migrate noNcuEnv (start (widgetFS widgetLibBoth))).1 = 0%Z
  /\ (React18.migrate silentEnv (start rplanFS)).1 = Pending
  /\ exitCode (React18.migrate silentEnv (start rplanFS)).1 = 0%Z
  /\ last (trace (React18.migrate silentEnv (start rplanFS)).2)
     = Some (EvQuestion React18.promptText)
  /\ forallb (fun e => negb (isStepBox completeTitle e) && negb (isExec "npm install" e))
       (trace (React18.migrate silentEnv (start rplanFS)).2) = true.
Proof.
  split; [vm_compute; reflexivity|].
  split; [vm_compute; reflexivity|].
  split; [apply list_elem_of_lookup; exists 24; vm_compute; reflexivity|].
  repeat split; vm_compute; reflexivity.
Qed.

(** * The synchronisation of the managed peers *)

Lemma spread_lookup (a b : option (gmap string string)) (name : string) :
  spread a b !! name
  = match default ∅ b !! name with
    | Some version => Some version
    | None => default ∅ a !! name
    end.
Proof.
  unfold spread. rewrite lookup_union.
  by destruct (default ∅ b !! name), (default ∅ a !! name).
Qed.

Lemma objectKeys_elem (obj : gmap string string) (name : string) :
  name ∈ objectKeys obj <-> is_Some (obj !! name).
Proof.
  unfold objectKeys. rewrite list_elem_of_fmap. split.
  - intros ([k v] & -> & H%elem_of_map_to_list). by exists v.
  - intros [v H]. exists (name, v). split; [done|]. by apply elem_of_map_to_list.
Qed.

Lemma objectKeys_NoDup (obj : gmap string string) : NoDup (objectKeys obj).
Proof. apply NoDup_fst_map_to_list. Qed.

Lemma syncPeer_other (allDeps peerDeps : gmap string string) (dep name : string) :
  name <> dep -> syncPeer allDeps peerDeps dep !! name = peerDeps !! name.
Proof.
  intros Hne. unfold syncPeer.
  destruct (startsWith dep "@rplan/" && truthy (peerDeps !! dep)); [|done].
  by rewrite lookup_insert_ne.
Qed.

Lemma fold_syncPeer_lookup (allDeps : gmap string string) (keys : list string)
    (peerDeps : gmap string string) (name : string) :
  NoDup keys ->
  fold_left (syncPeer allDeps) keys peerDeps !! name
  = if decide (name ∈ keys)
    then if startsWith name "@rplan/" && truthy (peerDeps !! name)
         then Some (default EmptyString (allDeps !! name))
         else peerDeps !! name
    else peerDeps !! name.
Proof.
  revert peerDeps. induction keys as [|dep keys IH]; intros peerDeps Hnodup;
    cbn [fold_left].
  - case_decide as H; [by apply elem_of_nil in H | done].
  - apply NoDup_cons in Hnodup as [Hfresh Hnodup]. rewrite IH by done.
    destruct (decide (name = dep)) as [->|Hne].
    + rewrite decide_False by done. rewrite decide_True by left.
      unfold syncPeer.
      destruct (startsWith dep "@rplan/" && truthy (peerDeps !! dep)); [|done].
      by rewrite lookup_insert_eq.
    + rewrite syncPeer_other by done.
      destruct (decide (name ∈ keys)) as [Hin|Hout].
      * by rewrite decide_True by (by right).
      * rewrite decide_False; [done|]. by intros [?|?]%elem_of_cons.
Qed.

Lemma syncRplanPeerDepsToInstalled_run (pkg : PackageJson) (w : World) :
  packageJson (fs w) = Parsed pkg ->
  exists t,
    React18.syncRplanPeerDepsToInstalled w
    = (Ret tt,
       mkWorld
         (mkFS (Parsed
                  (React18.setDeps pkg (dependencies pkg) (devDependencies pkg)
                     (Some (fold_left
                              (syncPeer (spread (dependencies pkg) (devDependencies pkg)))
                              (objectKeys (spread (dependencies pkg) (devDependencies pkg)))
                              (default ∅ (peerDependencies pkg))))))
               (node_modules (fs w)) (entries (fs w)))
         (asked w) (trace w ++ t))
    /\ forallb (fun e => negb (isPrompt e)) t = true.
Proof.
  intros Hpkg. unfold React18.syncRplanPeerDepsToInstalled, bind at 1.
  rewrite (loadPackageJson_parsed pkg w Hpkg). unfold bind at 1.
  set (allDeps := spread (dependencies pkg) (devDependencies pkg)).
  destruct (foldM_pure
              (fun (peerDeps : gmap string string) dep =>
                 if startsWith dep "@rplan/" && truthy (peerDeps !! dep)
                 then
                   log Info ("Synced peerDependency " ++ dep ++ " → "
                             ++ default EmptyString (allDeps !! dep)) ;;
                   ret (<[dep := default EmptyString (allDeps !! dep)]> peerDeps)
                 else ret peerDeps)
              (fun _ => syncPeer allDeps) quiet)
    with (l := objectKeys allDeps) (b := default ∅ (peerDependencies pkg)) (w := w)
    as (t & -> & Ht).
  - intros b dep w'. unfold syncPeer.
    destruct (startsWith dep "@rplan/" && truthy (b !! dep)).
    + by eexists [ _ ].
    + exists []. by rewrite <- world_eta.
  - eexists (t ++ [ _; _ ])%list. split.
    + unfold React18.savePackageJson, bind, getFS, putFS, log, emit. simpl.
      by rewrite <- !app_assoc.
    + rewrite forallb_app. simpl. rewrite andb_true_r.
      rewrite forallb_forall in Ht |- *. intros e He. specialize (Ht e He).
      unfold quiet in Ht. by apply andb_true_iff in Ht as [? _].
Qed.

(** X1: [syncRplanPeerDepsToInstalled] rewrites the manifest with the same
    dependencies and devDependencies and with a peerDependencies object (an
    empty one if there was none) that has the keys it had; the entry of a
    name changes only when the name starts with [@rplan/], is a dependency or
    devDependency and already had a truthy peer entry, and then it becomes
    the declared range, the one of devDependencies when both groups have the
    name. *)
Theorem sync_only_rewrites_managed_peers (pkg : PackageJson) (w : World) :
  packageJson (fs w) = Parsed pkg ->
  exists peerDeps w',
    React18.syncRplanPeerDepsToInstalled w = (Ret tt, w')
    /\ fs w'
       = mkFS (Parsed (mkPackageJson (dependencies pkg) (devDependencies pkg)
                         (Some peerDeps) (engines pkg) (otherFields pkg)))
              (node_modules (fs w)) (entries (fs w))
    /\ dom peerDeps = dom (default ∅ (peerDependencies pkg))
    /\ forall name,
         peerDeps !! name
         = match default ∅ (devDependencies pkg) !! name,
                 default ∅ (dependencies pkg) !! name with
           | Some version, _ | None, Some version =>
               if startsWith name "@rplan/"
                  && truthy (default ∅ (peerDependencies pkg) !! name)
               then Some version
               else default ∅ (peerDependencies pkg) !! name
           | None, None => default ∅ (peerDependencies pkg) !! name
           end.
Proof.
  intros Hpkg. destruct (syncRplanPeerDepsToInstalled_run pkg w Hpkg) as (t & Hrun & _).
  eexists _, _. split; [exact Hrun|]. split; [reflexivity|].
  set (allDeps := spread (dependencies pkg) (devDependencies pkg)).
  set (peer0 := default ∅ (peerDependencies pkg)).
  assert (forall name,
            fold_left (syncPeer allDeps) (objectKeys allDeps) peer0 !! name
            = match default ∅ (devDependencies pkg) !! name,
                    default ∅ (dependencies pkg) !! name with
              | Some version, _ | None, Some version =>
                  if startsWith name "@rplan/" && truthy (peer0 !! name)
                  then Some version else peer0 !! name
              | None, None => peer0 !! name
              end) as Hlookup.
  { intros name. rewrite fold_syncPeer_lookup by apply objectKeys_NoDup.
    pose proof (objectKeys_elem allDeps name) as Hkeys.
    pose proof (spread_lookup (dependencies pkg) (devDependencies pkg) name) as Hspread.
    fold allDeps in Hspread.
    destruct (decide (name ∈ objectKeys allDeps)) as [Hin|Hout].
    - apply Hkeys in Hin as [v Hv]. rewrite Hv. rewrite Hv in Hspread.
      destruct (default ∅ (devDependencies pkg) !! name) as [v1|];
        [by injection Hspread as ->|].
      by rewrite <- Hspread.
    - assert (allDeps !! name = None) as Hnone.
      { destruct (allDeps !! name) eqn:E; [|done]. destruct Hout. apply Hkeys. by eauto. }
      rewrite Hnone in Hspread.
      destruct (default ∅ (devDependencies pkg) !! name); [done|].
      by rewrite <- Hspread. }
  split; [|exact Hlookup].
  apply set_eq. intros name. rewrite !elem_of_dom, Hlookup.
  destruct (default ∅ (devDependencies pkg) !! name) as [v1|],
           (default ∅ (dependencies pkg) !! name) as [v2|];
    try done;
    destruct (startsWith name "@rplan/"); simpl; try done;
    destruct (truthy (peer0 !! name)) eqn:Ht; try done;
    apply truthy_is_Some in Ht; split; by eauto.
Qed.

Lemma sync_only_rewrites_managed_peers_witness :
  packageJson (fs (start peerFS)) = Parsed peerProject
  /\ exists peerDeps w',
       React18.syncRplanPeerDepsToInstalled (start peerFS) = (Ret tt, w')
       /\ packageJson (fs w')
          = Parsed (manifest (dependencies peerProject) (devDependencies peerProject)
                      (Some peerDeps))
       /\ peerDeps !! "@rplan/ui" = Some "2.1.0"
       /\ peerDeps !! "lodash" = Some "4.0.0".
Proof.
  split; [reflexivity|].
  destruct (sync_only_rewrites_managed_peers peerProject (start peerFS) eq_refl)
    as (peerDeps & w' & Hrun & Hfs & _ & Hlookup).
  exists peerDeps, w'. split; [exact Hrun|]. split; [by rewrite Hfs|].
  split; rewrite Hlookup; vm_compute; reflexivity.
Defined.

(** * The two uses of [ncu] *)

(** X2: [ensureNCU] never throws; it ends the process, with code 1, exactly
    when both [ncu -v] and the global install of [ncu] fail; the install is
    run only when [ncu -v] has failed; and no question is asked. *)
Theorem ensureNCU_outcome (env : Env) (w : World) :
  let probe := exec env "ncu -v" (fs w) in
  let install := exec env "npm install -g npm-check-updates" probe.2 in
  (React18.ensureNCU env w).1
  = (if probe.1 || install.1 then Ret tt else Exit 1)
  /\ fs (React18.ensureNCU env w).2 = (if probe.1 then probe.2 else install.2)
  /\ asked (React18.ensureNCU env w).2 = asked w
  /\ exists t,
       trace (React18.ensureNCU env w).2 = (trace w ++ t)%list
       /\ existsb (isExec "npm install -g npm-check-updates") t = negb probe.1.
Proof.
  unfold React18.ensureNCU, log, emit, bind, try_catch, execSync, exit, ret. simpl.
  destruct (exec env "ncu -v" (fs w)) as [[] fs1]; simpl.
  - repeat split. eexists [ _; _; _ ]. by rewrite <- !app_assoc.
  - destruct (exec env "npm install -g npm-check-updates" fs1) as [[] fs2]; simpl;
      repeat split; eexists [ _; _; _; _; _ ]; by rewrite <- !app_assoc.
Qed.

(** X3: [updateRplanDepsWithNCU] runs one command and always returns to
    [migrate], whether the command succeeds or fails: it never ends the
    process, never throws, asks no question and writes no file of its own. *)
Theorem updateRplanDepsWithNCU_always_returns (env : Env) (w : World) :
  exists ok level msg,
    React18.updateRplanDepsWithNCU env w
    = (Ret tt,
       mkWorld
         (exec env ("ncu " ++ doubleQuote ++ "/@rplan\/.*/" ++ doubleQuote ++ " -u") (fs w)).2
         (asked w)
         (trace w
          ++ [ EvLog Info "Updating @rplan/* dependencies using ncu...";
               EvExec ("ncu " ++ doubleQuote ++ "/@rplan\/.*/" ++ doubleQuote ++ " -u") ok;
               EvLog level msg ]))
    /\ ok = (exec env ("ncu " ++ doubleQuote ++ "/@rplan\/.*/" ++ doubleQuote ++ " -u")
               (fs w)).1
    /\ level = (if ok then Success else Error).
Proof.
  unfold React18.updateRplanDepsWithNCU, log, emit, bind, try_catch, execSync, ret. simpl.
  destruct (exec env _ (fs w)) as [[] fs1]; simpl;
    eexists _, _, _; rewrite <- !app_assoc; simpl; by repeat split.
Qed.

(** * More on the update of the core dependencies *)

Lemma fold_overwrite_falsy_eq (targets : list (string * string)) (d : gmap string string)
    (name : string) :
  truthy (d !! name) = false -> fold_left overwrite targets d !! name = d !! name.
Proof.
  revert d. induction targets as [|target targets IH]; intros d Ht; simpl; [done|].
  assert (overwrite d target !! name = d !! name) as Hsame.
  { destruct (decide (name = target.1)) as [->|Hne].
    - unfold overwrite. by rewrite Ht.
    - by rewrite overwrite_other. }
  rewrite IH; [done|]. by rewrite Hsame.
Qed.

Lemma fold_overwrite_idempotent (targets : list (string * string)) (d : gmap string string) :
  NoDup targets.*1 ->
  Forall (fun target => truthy (Some target.2) = true) targets ->
  fold_left overwrite targets (fold_left overwrite targets d)
  = fold_left overwrite targets d.
Proof.
  intros Hnodup Hversions. apply map_eq. intros name.
  destruct (truthy (fold_left overwrite targets d !! name)) eqn:Ht.
  - destruct (decide (name ∈ targets.*1)) as [Hin|Hout].
    + apply list_elem_of_fmap in Hin as ([n v] & -> & Hin). simpl in *.
      destruct (truthy (d !! n)) eqn:Hd.
      * rewrite (fold_overwrite_target targets d n v) by done.
        apply fold_overwrite_target; [done..|].
        rewrite (fold_overwrite_target targets d n v) by done.
        rewrite Forall_forall in Hversions. by apply (Hversions (n, v)).
      * by rewrite (fold_overwrite_falsy targets d n Hd) in Ht.
    + by rewrite fold_overwrite_other.
  - by apply fold_overwrite_falsy_eq.
Qed.

Lemma fold_updateGroups_idempotent (targets : list (string * string)) (pkg : PackageJson) :
  NoDup targets.*1 ->
  Forall (fun target => truthy (Some target.2) = true) targets ->
  fold_left updateGroups targets (fold_left updateGroups targets pkg)
  = fold_left updateGroups targets pkg.
Proof.
  intros Hnodup Hversions.
  rewrite (fold_updateGroups targets (fold_left updateGroups targets pkg)).
  rewrite (fold_updateGroups targets pkg). unfold React18.setDeps.
  cbn [dependencies devDependencies peerDependencies engines otherFields].
  destruct (dependencies pkg), (devDependencies pkg), (peerDependencies pkg);
    cbn [fmap option_fmap option_map]; by rewrite ?fold_overwrite_idempotent.
Qed.

Lemma targets_wellformed :
  NoDup React18.TARGET_VERSIONS.*1
  /\ Forall (fun target => truthy (Some target.2) = true) React18.TARGET_VERSIONS.
Proof.
  split.
  - apply NoDup_ListNoDup. repeat constructor; simpl; intuition discriminate.
  - by repeat constructor.
Qed.

(** X4: [updateCoreReactDeps] is idempotent: run again on the manifest it
    has just written, it writes that same manifest. *)
Theorem updateCoreReactDeps_idempotent (pkg : PackageJson) (w : World) :
  packageJson (fs w) = Parsed pkg ->
  exists pkg' w1 w2,
    React18.updateCoreReactDeps w = (Ret tt, w1)
    /\ packageJson (fs w1) = Parsed pkg'
    /\ React18.updateCoreReactDeps w1 = (Ret tt, w2)
    /\ fs w2 = fs w1.
Proof.
  intros Hpkg. destruct (updateCoreReactDeps_run pkg w Hpkg) as (t1 & Hrun1 & _).
  set (pkg' := fold_left updateGroups React18.TARGET_VERSIONS pkg) in *.
  set (w1 := mkWorld (mkFS (Parsed pkg') (node_modules (fs w)) (entries (fs w)))
               (asked w) (trace w ++ t1)) in *.
  destruct (updateCoreReactDeps_run pkg' w1 eq_refl) as (t2 & Hrun2 & _).
  eexists pkg', w1, _. split; [exact Hrun1|]. split; [reflexivity|].
  split; [exact Hrun2|]. subst w1 pkg'. cbn [fs node_modules entries].
  destruct targets_wellformed as [Hnodup Hversions].
  by rewrite fold_updateGroups_idempotent.
Qed.

Lemma updateCoreReactDeps_idempotent_witness :
  packageJson (fs (start rplanFS)) = Parsed rplanProject
  /\ exists pkg' w1 w2,
       React18.updateCoreReactDeps (start rplanFS) = (Ret tt, w1)
       /\ packageJson (fs w1) = Parsed pkg'
       /\ React18.updateCoreReactDeps w1 = (Ret tt, w2)
       /\ fs w2 = fs w1.
Proof.
  split; [reflexivity|].
  exact (updateCoreReactDeps_idempotent rplanProject (start rplanFS) eq_refl).
Defined.

(** X5: in the manifest that [updateCoreReactDeps] writes, no dependency
    meets the condition under which the second gate skips it: the only name
    on the allow-list is the renderer, and its entry is then absent, empty or
    ["^18.3.1"], none of which starts with ["18."]. *)
Theorem nothing_ignored_after_update (pkg : PackageJson) (w : World) :
  packageJson (fs w) = Parsed pkg ->
  exists pkg' w',
    React18.updateCoreReactDeps w = (Ret tt, w')
    /\ packageJson (fs w') = Parsed pkg'
    /\ forall dep, React18.ignored pkg' dep = false.
Proof.
  intros Hpkg. destruct (updateCoreReactDeps_run pkg w Hpkg) as (t & Hrun & _).
  eexists _, _. split; [exact Hrun|]. split; [reflexivity|].
  intros dep. destruct (arrayIncludes React18.ignoreWarningsFor dep) eqn:Hlisted.
  - unfold arrayIncludes, React18.ignoreWarningsFor in Hlisted. simpl in Hlisted.
    rewrite orb_false_r in Hlisted. apply String.eqb_eq in Hlisted as ->.
    apply renderer_never_ignored_after_update.
  - unfold React18.ignored. by rewrite Hlisted.
Qed.

Lemma nothing_ignored_after_update_witness :
  packageJson (fs (start (rendererFS "18.3.1"))) = Parsed (rendererProject "18.3.1")
  /\ React18.ignored (rendererProject "18.3.1") "react-test-renderer" = true
  /\ exists pkg' w',
       React18.updateCoreReactDeps (start (rendererFS "18.3.1")) = (Ret tt, w')
       /\ packageJson (fs w') = Parsed pkg'
       /\ forall dep, React18.ignored pkg' dep = false.
Proof.
  split; [reflexivity|]. split; [vm_compute; reflexivity|].
  exact (nothing_ignored_after_update (rendererProject "18.3.1")
           (start (rendererFS "18.3.1")) eq_refl).
Defined.

(** * More on the loops of the gates *)

Lemma foldM_exact {A B} (f : B -> A -> M B) (F : FS -> B -> A -> B)
    (T : FS -> A -> list Event) :
  (forall b x w,
      f b x w = (Ret (F (fs w) b x), mkWorld (fs w) (asked w) (trace w ++ T (fs w) x))) ->
  forall l b w,
    foldM f l b w
    = (Ret (fold_left (F (fs w)) l b),
       mkWorld (fs w) (asked w) (trace w ++ flat_map (T (fs w)) l)).
Proof.
  intros Hf l. induction l as [|x l IH]; intros b w; simpl.
  - by rewrite <- world_eta.
  - unfold bind. rewrite Hf, IH. simpl. by rewrite <- app_assoc.
Qed.

Lemma checkInstalled_exact (keys : list string) (issues : list React18.Issue)
    (dep : string) (w : World) :
  React18.checkInstalled keys issues dep w
  = (Ret (inspect keys (fs w) issues dep),
     mkWorld (fs w) (asked w)
       (trace w
        ++ match installed (fs w) dep with
           | Unreadable => [ EvLog Warn ("Could not check peerDependencies for " ++ dep) ]
           | _ => []
           end)).
Proof.
  unfold React18.checkInstalled, try_catch, bind, getFS, inspect.
  destruct (installed (fs w) dep) as [| |depPkg]; simpl; by rewrite <- ?world_eta.
Qed.

Lemma issuesOf_exact (g : Gate) (pkg : PackageJson) (w : World) :
  issuesOf g pkg w
  = (Ret (inspectAll g pkg (fs w)),
     mkWorld (fs w) (asked w)
       (trace w ++ flat_map (warning g pkg (fs w)) (candidates g pkg))).
Proof.
  destruct g; unfold issuesOf, React18.rplanIssues, React18.nonRplanIssues, inspectAll.
  - apply (foldM_exact _ (fun fs0 issues dep => inspect _ fs0 issues dep)
             (warning Rplan pkg)).
    intros b x w'. apply checkInstalled_exact.
  - apply (foldM_exact _
             (fun fs0 issues dep =>
                if exempt NonRplan pkg dep then issues
                else inspect (anchors NonRplan) fs0 issues dep)
             (warning NonRplan pkg)).
    intros b x w'. unfold warning. simpl. destruct (React18.ignored pkg x).
    + by rewrite <- world_eta.
    + apply checkInstalled_exact.
Qed.

Lemma append_inv_head (p a b : string) : p ++ a = p ++ b -> a = b.
Proof.
  induction p as [|c p IH]; intros H; [exact H|].
  change (String c (p ++ a) = String c (p ++ b)) in H. injection H as H. by apply IH.
Qed.

Lemma cannotCheck_inj (dep dep' : string) : cannotCheck dep = cannotCheck dep' -> dep = dep'.
Proof. unfold cannotCheck. intros [= H]. by apply append_inv_head in H. Qed.

Lemma warning_elem (g : Gate) (pkg : PackageJson) (fs0 : FS) (dep : string) (e : Event) :
  e ∈ warning g pkg fs0 dep
  <-> e = cannotCheck dep /\ exempt g pkg dep = false /\ installed fs0 dep = Unreadable.
Proof.
  unfold warning. destruct (exempt g pkg dep).
  - split; [by intros ?%elem_of_nil | by intros (_ & ? & _)].
  - destruct (installed fs0 dep).
    + split; [by intros ?%elem_of_nil | by intros (_ & _ & ?)].
    + rewrite list_elem_of_singleton. split; [by intros -> | by intros (-> & _)].
    + split; [by intros ?%elem_of_nil | by intros (_ & _ & ?)].
Qed.

Lemma candidates_NoDup (g : Gate) (pkg : PackageJson) : NoDup (candidates g pkg).
Proof. destruct g; apply NoDup_filter, objectKeys_NoDup. Qed.

Lemma warnings_NoDup (g : Gate) (pkg : PackageJson) (fs0 : FS) (deps : list string) :
  NoDup deps -> NoDup (flat_map (warning g pkg fs0) deps).
Proof.
  induction deps as [|dep deps IH]; intros Hdeps; simpl; [constructor|].
  apply NoDup_cons in Hdeps as [Hfresh Hdeps]. apply NoDup_app. split; [|split].
  - unfold warning. destruct (exempt g pkg dep); [constructor|].
    destruct (installed fs0 dep); [constructor | | constructor].
    apply NoDup_singleton.
  - intros e He Hrest. apply warning_elem in He as (-> & _).
    apply list_elem_of_In, in_flat_map in Hrest as (dep' & Hdep' & He).
    apply list_elem_of_In in Hdep', He. apply warning_elem in He as (Heq & _).
    apply cannotCheck_inj in Heq as <-. done.
  - by apply IH.
Qed.

(** X6: the loop of either gate always returns: nothing under
    [node_modules] makes it throw or end the process; it changes no file and
    asks nothing. Its [issues] are exactly the incompatible requirements of
    the dependencies it inspects, and what it prints is exactly one warning
    for each dependency it inspects whose installed manifest is there but
    cannot be parsed. (In which order the dependencies are visited is not
    stated.) *)
Theorem gate_loop_always_returns (g : Gate) (pkg : PackageJson) (w : World) :
  exists issues t,
    issuesOf g pkg w = (Ret issues, mkWorld (fs w) (asked w) (trace w ++ t))
    /\ (forall i, i ∈ issues <-> flaggedBy g pkg (fs w) i)
    /\ NoDup t
    /\ forall e,
         e ∈ t
         <-> exists dep,
               e = cannotCheck dep
               /\ dep ∈ candidates g pkg
               /\ exempt g pkg dep = false
               /\ installed (fs w) dep = Unreadable.
Proof.
  eexists _, _. split; [apply issuesOf_exact|]. split; [apply inspectAll_elem|].
  split; [apply warnings_NoDup, candidates_NoDup|].
  intros e. rewrite list_elem_of_In, in_flat_map. split.
  - intros (dep & Hdep & He). apply list_elem_of_In in Hdep, He.
    apply warning_elem in He as (-> & Hex & Hinst). by exists dep.
  - intros (dep & -> & Hdep & Hex & Hinst). exists dep.
    split; [by apply list_elem_of_In|]. apply list_elem_of_In, warning_elem. done.
Qed.

(** X7: the first gate reports managed packages only: every entry of its
    [issues] carries a name that starts with [@rplan/] and is a key of
    dependencies or devDependencies, and a peer name that is [react] or
    [react-dom]; a requirement on [@testing-library/react] is never
    reported by this gate. *)
Theorem rplan_gate_reports_managed_only (pkg : PackageJson) (w : World) :
  exists issues w',
    React18.rplanIssues pkg w = (Ret issues, w')
    /\ forall i,
         i ∈ issues ->
         (exists rest, React18.issue_name i = "@rplan/" ++ rest)
         /\ (is_Some (default ∅ (dependencies pkg) !! React18.issue_name i)
             \/ is_Some (default ∅ (devDependencies pkg) !! React18.issue_name i))
         /\ (React18.issue_peer i = "react" \/ React18.issue_peer i = "react-dom").
Proof.
  destruct (issuesOf_run Rplan pkg w) as (t & Hrun & _).
  eexists _, _. split; [exact Hrun|].
  intros i Hi. apply inspectAll_elem in Hi.
  destruct Hi as (Hcand & _ & d & _ & Hpeer & _). simpl in Hcand, Hpeer.
  unfold React18.rplanDeps in Hcand.
  apply list_elem_of_filter in Hcand as [Hp Hkey]. split; [|split].
  - apply Is_true_true in Hp. by apply prefix_app in Hp.
  - apply objectKeys_elem in Hkey as [v Hv]. rewrite spread_lookup in Hv.
    destruct (default ∅ (devDependencies pkg) !! React18.issue_name i) eqn:E.
    + right. by eauto.
    + left. by eauto.
  - apply elem_of_cons in Hpeer as [?|Hpeer]; [by left|].
    apply elem_of_cons in Hpeer as [?|Hpeer]; [by right|].
    by apply elem_of_nil in Hpeer.
Qed.

(** * Prompts and the installer *)

Lemma asksAtMost_bind {A B} (a b n : nat) (m : M A) (k : A -> M B) :
  asksAtMost a m -> (forall x, asksAtMost b (k x)) -> a + b <= n ->
  asksAtMost n (bind m k).
Proof.
  intros Hm Hk Hn w. unfold bind. specialize (Hm w).
  destruct (m w) as [[x|code| |] w1]; simpl in *; [|lia..].
  specialize (Hk x w1). lia.
Qed.

Lemma asksAtMost_same {A} (n : nat) (m : M A) :
  preserves sameAsked m -> asksAtMost n m.
Proof. intros Hm w. destruct (Hm w) as [H _]. unfold sameAsked in H. lia. Qed.

Lemma check_asks_once (env : Env) (g : Gate) : asksAtMost 1 (check env g).
Proof.
  intros w. destruct (packageJson (fs w)) as [| |pkg] eqn:Hpkg.
  - destruct g; unfold check, React18.checkRplanPeerDepsForReact17Prompt,
      React18.checkNonRplanPeerDepsForReact17Prompt, React18.loadPackageJson,
      bind, getFS; simpl; rewrite Hpkg; simpl; lia.
  - destruct g; unfold check, React18.checkRplanPeerDepsForReact17Prompt,
      React18.checkNonRplanPeerDepsForReact17Prompt, React18.loadPackageJson,
      bind, getFS; simpl; rewrite Hpkg; simpl; lia.
  - destruct (inspectAll g pkg (fs w)) as [|i issues] eqn:Hissues.
    + destruct (check_clean env g pkg w Hpkg Hissues) as (t & -> & _). simpl. lia.
    + destruct (check_flagged env g pkg w Hpkg) as (t & -> & _); [by rewrite Hissues|].
      simpl. lia.
Qed.

(** X8: a gate puts at most one question to the operator, and a whole run
    of the React migration at most two. *)
Theorem at_most_one_prompt_per_gate (env : Env) (fs0 : FS) :
  (forall g w, asked w <= asked (check env g w).2 <= asked w + 1)
  /\ asked (React18.migrate env (start fs0)).2 <= 2.
Proof.
  split; [intros g w; apply check_asks_once|].
  assert (asksAtMost 2 (React18.migrate env)) as H; [|specialize (H (start fs0)); simpl in H; lia].
  unfold React18.migrate.
  do 11 (eapply (asksAtMost_bind 0 2);
         [apply asksAtMost_same; solve [ solve_footprint ] | intros _ | lia]).
  eapply (asksAtMost_bind 1 1); [apply (check_asks_once env Rplan) | intros _ | lia].
  eapply (asksAtMost_bind 0 1);
    [apply asksAtMost_same; solve [ solve_footprint ] | intros _ | lia].
  eapply (asksAtMost_bind 1 0); [apply (check_asks_once env NonRplan) | intros _ | lia].
  apply asksAtMost_same. solve_footprint.
Qed.

Lemma haltsBefore_bind {A B} (bad late : Event -> bool) (m : M A) (k : A -> M B) :
  diesOn bad m ->
  preserves (grows (fun e => negb (late e))) m ->
  (forall a, haltsBefore bad late (k a)) ->
  haltsBefore bad late (bind m k).
Proof.
  intros Hdie Hm Hk w. unfold bind.
  destruct (Hdie w) as (t & Ht & Hexit). destruct (Hm w) as [(t' & Ht' & Hlate) _].
  assert (t' = t) as -> by (rewrite Ht in Ht'; by apply app_inv_head in Ht').
  destruct (m w) as [[a|code| |] w1]; simpl in *.
  - destruct (Hk a w1) as (t1 & t2 & Hk1 & Hl1 & Hb2 & Hstop).
    exists (t ++ t1)%list, t2. rewrite Hk1, Ht, <- !app_assoc, forallb_app, Hlate, Hl1.
    repeat split; [done|]. rewrite existsb_app. intros [H|H]%orb_true_iff; [|by apply Hstop].
    by specialize (Hexit H).
  - exists t, []. by rewrite app_nil_r.
  - exists t, []. by rewrite app_nil_r.
  - exists t, []. by rewrite app_nil_r.
Qed.

Lemma haltsBefore_late {A} (bad late : Event -> bool) (m : M A) :
  preserves (grows (fun e => negb (bad e))) m -> haltsBefore bad late m.
Proof. intros Hm w. destruct (Hm w) as [(t & Ht & Hq) _]. by exists [], t. Qed.

Lemma migrate_haltsBefore (env : Env) :
  haltsBefore isAbort (isExec "npm install") (React18.migrate env).
Proof.
  unfold React18.migrate.
  do 16 (apply haltsBefore_bind;
         [ unfold_steps; dies | solve [ solve_footprint ] | intros _ ]).
  apply haltsBefore_late. solve_footprint.
Qed.

(** X9: a gate that aborts does so before the installer is invoked: in every
    run of the React migration in which a gate has announced that it aborts,
    [npm install] is not executed. *)
Theorem abort_comes_before_install (env : Env) (fs0 : FS) :
  forall e,
    e ∈ trace (React18.migrate env (start fs0)).2 ->
    isAbort e = true ->
    forall ok, EvExec "npm install" ok ∉ trace (React18.migrate env (start fs0)).2.
Proof.
  intros e He Habort ok Hexec.
  destruct (migrate_haltsBefore env (start fs0)) as (t1 & t2 & Ht & Hlate & Hbad & Hstop).
  simpl in Ht. rewrite Ht in He, Hexec.
  rewrite forallb_forall in Hlate, Hbad.
  assert (existsb isAbort t1 = true) as Hin.
  { apply existsb_elem_of. exists e. split; [|done].
    apply elem_of_app in He as [?|He]; [done|].
    apply list_elem_of_In, Hbad in He. by rewrite Habort in He. }
  rewrite (Hstop Hin), app_nil_r in Hexec.
  apply list_elem_of_In, Hlate in Hexec. by cbv in Hexec.
Qed.

Lemma abort_comes_before_install_witness :
  EvLog Error abortRplan ∈ trace (React18.migrate (calmEnv "n") (start rplanFS)).2
  /\ isAbort (EvLog Error abortRplan) = true
  /\ forall ok,
       EvExec "npm install" ok ∉ trace (React18.migrate (calmEnv "n") (start rplanFS)).2.
Proof.
  assert (EvLog Error abortRplan
          ∈ trace (React18.migrate (calmEnv "n") (start rplanFS)).2) as Hin.
  { apply list_elem_of_lookup. exists 23. vm_compute. reflexivity. }
  split; [exact Hin|]. split; [reflexivity|].
  exact (abort_comes_before_install (calmEnv "n") rplanFS _ Hin eq_refl).
Defined.

(** * More on the Node script *)

(** X10: with an interpreter older than 22 the Node run ends at its first
    step with code 1: one error is printed, and no file is written, no child
    process started and no question asked. *)
Theorem old_node_stops_the_run (env : Env) (w : World) :
  ((processVersion env).1.1 < 22)%N ->
  Node22.runMigration env w
  = (Exit 1,
     mkWorld (fs w) (asked w)
       (trace w
        ++ [ EvLog Error
               ("Error: Node.js version is too low. Expected version >=22, but found "
                ++ Node22.versionString (processVersion env) ++ ".") ])).
Proof.
  intros Hold. unfold Node22.runMigration. erewrite bind_Exit; [reflexivity|].
  unfold Node22.verifyNodeCompatibility. apply N.ltb_lt in Hold. rewrite Hold.
  reflexivity.
Qed.

Lemma old_node_stops_the_run_witness :
  ((processVersion oldNodeEnv).1.1 < 22)%N
  /\ Node22.runMigration oldNodeEnv (start imageFS)
     = (Exit 1,
        mkWorld imageFS 0
          [ EvLog Error
              "Error: Node.js version is too low. Expected version >=22, but found v20.11.1." ]).
Proof.
  assert ((processVersion oldNodeEnv).1.1 < 22)%N as Hold by (vm_compute; reflexivity).
  split; [exact Hold|].
  rewrite (old_node_stops_the_run oldNodeEnv (start imageFS) Hold).
  vm_compute. reflexivity.
Defined.

(** X11: when [package.json] exists and [require] loads a manifest,
    [updateNodeVersionInPackageJson] writes that manifest once with
    [engines.node] set to [>=22] (creating [engines] if it was absent),
    every other entry of [engines] and every other field as loaded, and it
    touches no other file. *)
Theorem engines_node_is_set (env : Env) (w : World) (packageData : PackageJson) :
  packageJson (fs w) <> Missing ->
  moduleManifest env = Parsed packageData ->
  exists engines',
    Node22.updateNodeVersionInPackageJson env w
    = (Ret tt,
       mkWorld
         (mkFS (Parsed (mkPackageJson (dependencies packageData)
                          (devDependencies packageData) (peerDependencies packageData)
                          (Some engines') (otherFields packageData)))
               (node_modules (fs w)) (entries (fs w)))
         (asked w)
         (trace w
          ++ [ EvWriteManifest
                 (mkPackageJson (dependencies packageData) (devDependencies packageData)
                    (peerDependencies packageData) (Some engines')
                    (otherFields packageData));
               EvLog Success "Node.js version updated to >=22 in package.json" ]))
    /\ engines' !! "node" = Some ">=22"
    /\ forall key, key <> "node" -> engines' !! key = default ∅ (engines packageData) !! key.
Proof.
  intros Hthere Hmodule. eexists. split; [|split].
  - unfold Node22.updateNodeVersionInPackageJson, bind, getFS, putFS, emit,
      Node22.printSuccess, log, emit. simpl. rewrite Hmodule.
    destruct (packageJson (fs w)); [done| |]; simpl; by rewrite <- !app_assoc.
  - by rewrite lookup_insert_eq.
  - intros key Hkey. by rewrite lookup_insert_ne.
Qed.

Lemma engines_node_is_set_witness :
  packageJson (fs (start enginesFS)) <> Missing
  /\ moduleManifest homeEnv = Parsed enginesProject
  /\ exists (engines' : gmap string string) w',
       Node22.updateNodeVersionInPackageJson homeEnv (start enginesFS) = (Ret tt, w')
       /\ engines' !! "node" = Some ">=22"
       /\ engines' !! "npm" = Some ">=10".
Proof.
  assert (packageJson (fs (start enginesFS)) <> Missing) as H1 by discriminate.
  split; [exact H1|]. split; [reflexivity|].
  destruct (engines_node_is_set homeEnv (start enginesFS) enginesProject H1 eq_refl)
    as (engines' & Hrun & Hnode & Hother).
  eexists engines', _. split; [exact Hrun|]. split; [exact Hnode|].
  rewrite Hother by discriminate. vm_compute. reflexivity.
Defined.

(** X12: [updateTypesNode] never throws: it returns unless the one command
    it may run fails, in which case the process ends with code 1; the command
    is run exactly when the manifest can be read and its devDependencies hold
    a truthy entry for [@types/node]; a manifest that is absent or cannot be
    read only costs an error message. *)
Theorem updateTypesNode_outcome (env : Env) (w : World) :
  let command := "npm install --save-dev @types/node@22" in
  let wanted :=
    match packageJson (fs w) with
    | Parsed packageJson => truthy (default ∅ (devDependencies packageJson) !! "@types/node")
    | _ => false
    end in
  (Node22.updateTypesNode env w).1
  = (if wanted && negb (exec env command (fs w)).1 then Exit 1 else Ret tt)
  /\ fs (Node22.updateTypesNode env w).2
     = (if wanted then (exec env command (fs w)).2 else fs w)
  /\ asked (Node22.updateTypesNode env w).2 = asked w
  /\ exists t,
       trace (Node22.updateTypesNode env w).2 = (trace w ++ t)%list
       /\ existsb (isExec command) t = wanted
       /\ forallb (fun e => negb (isWrite e)) t = true.
Proof.
  unfold Node22.updateTypesNode, Node22.printInfo, Node22.printError, Node22.printSuccess,
    Node22.runCommand, log, emit, bind, try_catch, getFS, execSync, exit, ret, throw.
  simpl.
  destruct (packageJson (fs w)) as [| |packageJson]; simpl.
  - do 3 (split; [done|]). eexists [ _; _ ]. rewrite <- !app_assoc.
    split; [reflexivity | split; reflexivity].
  - do 3 (split; [done|]). eexists [ _; _ ]. rewrite <- !app_assoc.
    split; [reflexivity | split; reflexivity].
  - destruct (devDependencies packageJson) as [devDeps|]; simpl.
    + destruct (truthy (devDeps !! "@types/node")) eqn:Ht; simpl.
      * change ("npm install --save-dev @types/node@" ++ Node22.NODE_VERSION)
          with "npm install --save-dev @types/node@22".
        destruct (exec env "npm install --save-dev @types/node@22" (fs w)) as [[] fs1];
          simpl; do 3 (split; [done|]); eexists [ _; _; _; _; _ ];
          rewrite <- !app_assoc; (split; [reflexivity | split; reflexivity]).
      * do 3 (split; [done|]). eexists [ _; _ ]. rewrite <- !app_assoc.
        split; [reflexivity | split; reflexivity].
    + do 3 (split; [done|]). eexists [ _; _ ]. rewrite <- !app_assoc.
      split; [reflexivity | split; reflexivity].
Qed.

(** * The searches of the Node script *)

Lemma Node_nested_ind (P : Node -> Prop) :
  (forall text, P (TextFile text)) ->
  (forall items, Forall (fun entry => P entry.2) items -> P (Folder items)) ->
  forall n, P n.
Proof.
  intros Hfile Hfolder. fix IH 1. intros [text|items]; [apply Hfile|].
  apply Hfolder. induction items as [|[i n] items IHitems]; constructor; [apply IH | done].
Qed.

Lemma scan_elem (keep : string -> string -> bool) (n : Node) :
  forall dir item p,
    p ∈ Node22.scan keep dir item n
    <-> match n with
        | TextFile _ =>
            p = (dir ++ [ item ])%list /\ keep item (Node22.renderPath p) = true
        | Folder items =>
            arrayIncludes Node22.IGNORED_FOLDERS item = false
            /\ exists rest name,
                 p = (dir ++ item :: rest ++ [ name ])%list
                 /\ fileIn items (rest ++ [ name ])%list
                 /\ Forall (fun folder => arrayIncludes Node22.IGNORED_FOLDERS folder = false)
                      rest
                 /\ keep name (Node22.renderPath p) = true
        end.
Proof.
  induction n as [text|items IH] using Node_nested_ind; intros dir item p.
  - simpl. destruct (keep item (Node22.renderPath (dir ++ [ item ]))) eqn:Hkeep.
    + rewrite list_elem_of_singleton. split; [by intros -> | by intros [-> _]].
    + split; [by intros ?%elem_of_nil | intros [-> H]; congruence].
  - cbn [Node22.scan].
    destruct (arrayIncludes Node22.IGNORED_FOLDERS item) eqn:Hign.
    { split; [by intros ?%elem_of_nil | by intros [? _]]. }
    rewrite Forall_forall in IH.
    rewrite list_elem_of_In, in_flat_map. split.
    + intros ([i n] & Hin & Hp). apply list_elem_of_In in Hin, Hp.
      apply (IH _ Hin) in Hp. simpl in Hp. split; [done|]. destruct n as [text|sub].
      * destruct Hp as [-> Hkeep]. exists [], i.
        split; [by rewrite <- app_assoc|]. split; [by econstructor|].
        split; [constructor | done].
      * destruct Hp as (Hi & rest & name & -> & Hfile & Hrest & Hkeep).
        exists (i :: rest), name.
        split; [by rewrite <- app_assoc|]. split; [by econstructor|].
        split; [by constructor | done].
    + intros (_ & rest & name & -> & Hfile & Hrest & Hkeep).
      inversion Hfile as [items' name' text Hin Heq1 Heq2
                         | items' sub folder rest' Hin Hsub Heq1 Heq2]; subst.
      * destruct rest as [|? [|]]; try discriminate. injection Heq2 as ->.
        exists (name, TextFile text). split; [by apply list_elem_of_In|].
        apply list_elem_of_In. apply (IH _ Hin). simpl.
        simpl in Hkeep. rewrite <- app_assoc. simpl. done.
      * destruct rest as [|r rest].
        { simpl in Heq2. injection Heq2 as -> ->. inversion Hsub. }
        simpl in Heq2. injection Heq2 as -> ->.
        apply Forall_cons in Hrest as [Hr Hrest].
        exists (r, Folder sub). split; [by apply list_elem_of_In|].
        apply list_elem_of_In. apply (IH _ Hin). simpl.
        split; [done|]. exists rest, name.
        simpl in Hkeep. rewrite <- app_assoc. simpl. done.
Qed.

Lemma search_elem (keep : string -> string -> bool) (items : list (string * Node))
    (dir p : list string) :
  p ∈ flat_map (fun '(i, n) => Node22.scan keep dir i n) items <-> found keep items dir p.
Proof.
  rewrite list_elem_of_In, in_flat_map. unfold found. split.
  - intros ([i n] & Hin & Hp). apply list_elem_of_In in Hin, Hp.
    apply scan_elem in Hp. destruct n as [text|sub].
    + destruct Hp as [-> Hkeep]. exists [], i.
      split; [done|]. split; [by econstructor|]. split; [constructor | done].
    + destruct Hp as (Hi & rest & name & -> & Hfile & Hrest & Hkeep).
      exists (i :: rest), name.
      split; [done|]. split; [by econstructor|]. split; [by constructor | done].
  - intros (folders & name & -> & Hfile & Hfolders & Hkeep).
    inversion Hfile as [items' name' text Hin Heq1 Heq2
                       | items' sub folder rest' Hin Hsub Heq1 Heq2]; subst.
    + destruct folders as [|? [|]]; try discriminate. injection Heq2 as ->.
      exists (name, TextFile text). split; [by apply list_elem_of_In|].
      apply list_elem_of_In, scan_elem. done.
    + destruct folders as [|r rest].
      { simpl in Heq2. injection Heq2 as -> ->. inversion Hsub. }
      simpl in Heq2. injection Heq2 as -> ->.
      apply Forall_cons in Hfolders as [Hr Hrest].
      exists (r, Folder sub). split; [by apply list_elem_of_In|].
      apply list_elem_of_In, scan_elem. split; [done|]. by exists rest, name.
Qed.


(** The two searches on a sample tree: the image file under [node_modules]
    is not found; and a file whose name has the Kelvin sign for its [k] is
    found under a runtime that maps that sign to [k]. *)
Example searches_on_a_sample :
  Node22.findDockerfiles (calmEnv "no") Node22.DOCKERFILE_DIR (start imageFS)
  = (Ret [ [ "Dockerfile" ]; [ "services"; "api"; "dockerfile" ] ], start imageFS)
  /\ Node22.getYamlFilesInDir (calmEnv "no") Node22.GITHUB_ACTIONS_DIR (start imageFS)
     = (Ret [ [ ".github"; "workflows"; "ci.yml" ] ], start imageFS)
  /\ Node22.getYamlFilesInDir (calmEnv "no") [ "missing" ] (start imageFS)
     = (Throw, start imageFS)
  /\ Node22.findDockerfiles kelvinEnv Node22.DOCKERFILE_DIR (start kelvinFS)
     = (Ret [ [ "k"; kelvinName ] ], start kelvinFS).
Proof. repeat split; vm_compute; reflexivity. Qed.

(** * The replacements of the Node script *)

Lemma replaceAllFuel_no_match (matchAt : string -> option string) (replacement : string)
    (fuel : nat) (s : string) :
  (forall before after, s = before ++ after -> matchAt after = None) ->
  Node22.replaceAllFuel matchAt replacement fuel s = s.
Proof.
  revert s. induction fuel as [|fuel IH]; intros s Hnone; simpl; [done|].
  rewrite (Hnone EmptyString s eq_refl). destruct s as [|c rest]; [done|].
  f_equal. apply IH. intros before after ->. by apply (Hnone (String c before) after).
Qed.

Lemma literal_prefix (lit s rest : string) :
  Node22.literal lit s = Some rest -> String.prefix lit s = true.
Proof. unfold Node22.literal. by destruct (String.prefix lit s). Qed.

Lemma no_match_without (matchAt : string -> option string) (lit replacement s : string) :
  (forall after rest, matchAt after = Some rest -> String.prefix lit after = true) ->
  ~ substring lit s ->
  Node22.replaceAll matchAt replacement s = s.
Proof.
  intros Hstart Hnone. apply replaceAllFuel_no_match. intros before after ->.
  destruct (matchAt after) as [rest|] eqn:Hmatch; [|done].
  destruct Hnone. apply Hstart, prefix_app in Hmatch as [q ->]. by exists before, q.
Qed.

(** X14: a workflow text in which [node_version:] does not occur is returned
    as it is by the replacement of [updateNodeVersionInGitHubActions], and a
    Dockerfile text in which neither [node:20] nor [europe-west3-docker]
    occurs is returned as it is by the two replacements of
    [checkAndUpdateDockerfiles]; such files are therefore not rewritten. *)
Theorem texts_without_a_pattern_are_kept (text : string) :
  (~ substring "node_version:" text -> Node22.updateWorkflow text = text)
  /\ (~ substring "node:20" text -> ~ substring "europe-west3-docker" text ->
      Node22.updateDockerfile text = text).
Proof.
  split.
  - intros Hnone. unfold Node22.updateWorkflow.
    apply (no_match_without _ "node_version:"); [|done].
    intros after rest. unfold Node22.matchNodeVersion.
    destruct (Node22.literal "node_version:" after) as [r|] eqn:Hlit; [|done].
    intros _. by apply literal_prefix in Hlit.
  - intros Hnode Hbase. unfold Node22.updateDockerfile.
    rewrite (no_match_without Node22.matchNodeImage "node:20"); [| |done].
    + apply (no_match_without _ "europe-west3-docker"); [|done].
      intros after rest. unfold Node22.matchBaseImage.
      destruct (Node22.literal "europe-west3-docker" after) as [r|] eqn:Hlit; [|done].
      intros _. by apply literal_prefix in Hlit.
    + intros after rest. unfold Node22.matchNodeImage.
      destruct (Node22.literal "node:20" after) as [r|] eqn:Hlit; [|done].
      intros _. by apply literal_prefix in Hlit.
Qed.

Lemma texts_without_a_pattern_are_kept_witness :
  ~ substring "node_version:" "node-version: 20"
  /\ Node22.updateWorkflow "node-version: 20" = "node-version: 20"
  /\ ~ substring "node:20" "FROM node:18-alpine"
  /\ ~ substring "europe-west3-docker" "FROM node:18-alpine"
  /\ Node22.updateDockerfile "FROM node:18-alpine" = "FROM node:18-alpine".
Proof.
  assert (~ substring "node_version:" "node-version: 20") as H1
    by (apply includes_not_substring; vm_compute; reflexivity).
  assert (~ substring "node:20" "FROM node:18-alpine") as H2
    by (apply includes_not_substring; vm_compute; reflexivity).
  assert (~ substring "europe-west3-docker" "FROM node:18-alpine") as H3
    by (apply includes_not_substring; vm_compute; reflexivity).
  split; [exact H1|].
  split; [exact (proj1 (texts_without_a_pattern_are_kept "node-version: 20") H1)|].
  split; [exact H2|]. split; [exact H3|].
  exact (proj2 (texts_without_a_pattern_are_kept "FROM node:18-alpine") H2 H3).
Defined.

(** * What the Node script rewrites *)

Lemma findDockerfiles_run (env : Env) (dir : list string) (w : World) :
  Node22.findDockerfiles env dir w
  = match Node22.readdirSync (entries (fs w)) dir with
    | Some items =>
        (Ret (flat_map (fun '(i, n) => Node22.scan (Node22.isDockerfile env) dir i n) items), w)
    | None => (Throw, w)
    end.
Proof.
  unfold Node22.findDockerfiles, bind, getFS. simpl.
  by destruct (Node22.readdirSync (entries (fs w)) dir).
Qed.

Lemma getYamlFilesInDir_run (env : Env) (dir : list string) (w : World) :
  Node22.getYamlFilesInDir env dir w
  = match Node22.readdirSync (entries (fs w)) dir with
    | Some items =>
        (Ret (flat_map (fun '(i, n) => Node22.scan (Node22.isYaml env) dir i n) items), w)
    | None => (Throw, w)
    end.
Proof.
  unfold Node22.getYamlFilesInDir, bind, getFS. simpl.
  by destruct (Node22.readdirSync (entries (fs w)) dir).
Qed.

Lemma preserves_forEach_elem {A} (R : World -> World -> Prop) `{!PreOrder R}
    (l : list A) (f : A -> M unit) :
  (forall x, x ∈ l -> preserves R (f x)) -> preserves R (forEach l f).
Proof.
  intros Hf. unfold forEach. generalize tt.
  induction l as [|x l IH]; intros u; simpl.
  - by apply preserves_ret.
  - apply preserves_bind; [done | apply Hf; left |].
    intros u'. apply IH. intros y Hy. apply Hf. by right.
Qed.

Lemma rewrite_loop_within (paths : list (list string)) (label done_ kept : list string -> string)
    (update : string -> string) :
  preserves (grows (writesWithin paths))
    (forEach paths
       (fun file =>
          Node22.printInfo (label file) ;;
          text <- Node22.readFileSync file ;;
          if negb (String.eqb (update text) text)
          then Node22.writeFileSync file (update text) ;;
               Node22.printSuccess (done_ file)
          else Node22.printInfo (kept file))).
Proof.
  apply preserves_forEach_elem; [apply _|]. intros file Hfile.
  unfold_steps. footprint.
  apply grows_emit. simpl. by apply bool_decide_eq_true_2.
Qed.

Lemma writesWithin_elem (paths : list (list string)) (t : list Event) :
  forallb (writesWithin paths) t = true ->
  (forall data, EvWriteManifest data ∉ t)
  /\ forall p text, EvWriteFile p text ∈ t -> p ∈ paths.
Proof.
  rewrite forallb_forall. intros H. split.
  - intros data Hin%list_elem_of_In. by apply H in Hin.
  - intros p text Hin%list_elem_of_In. apply H in Hin. simpl in Hin.
    by apply bool_decide_eq_true_1 in Hin.
Qed.

(** X15: the two rewriting steps of the Node script write nothing but files
    that their search has found: [checkAndUpdateDockerfiles] only files
    whose name the runtime turns into [dockerfile] in lower case,
    [updateNodeVersionInGitHubActions] only YAML files below the workflow
    directory, in both cases reached through folders that are not ignored, so
    never a file under [node_modules] or [.git]; and neither step writes
    [package.json]. *)
Theorem rewriting_steps_write_found_files_only (env : Env) (w : World) :
  (exists t,
     trace (Node22.checkAndUpdateDockerfiles env w).2 = (trace w ++ t)%list
     /\ (forall data, EvWriteManifest data ∉ t)
     /\ forall p text,
          EvWriteFile p text ∈ t ->
          found (Node22.isDockerfile env) (entries (fs w)) Node22.DOCKERFILE_DIR p)
  /\ (exists t,
        trace (Node22.updateNodeVersionInGitHubActions env w).2 = (trace w ++ t)%list
        /\ (forall data, EvWriteManifest data ∉ t)
        /\ forall p text,
             EvWriteFile p text ∈ t ->
             exists items,
               Node22.readdirSync (entries (fs w)) Node22.GITHUB_ACTIONS_DIR = Some items
               /\ found (Node22.isYaml env) items Node22.GITHUB_ACTIONS_DIR p).
Proof.
  split.
  - unfold Node22.checkAndUpdateDockerfiles. unfold bind at 1.
    rewrite findDockerfiles_run. simpl Node22.readdirSync. cbv beta iota.
    set (dockerfiles := flat_map _ (entries (fs w))).
    assert (forall p, p ∈ dockerfiles
                      -> found (Node22.isDockerfile env) (entries (fs w)) Node22.DOCKERFILE_DIR p)
      as Hfound by (intros p; apply search_elem).
    clearbody dockerfiles. destruct dockerfiles as [|path paths].
    + eexists [ _ ]. split; [reflexivity|]. split.
      * intros data [=]%list_elem_of_singleton.
      * intros p text [=]%list_elem_of_singleton.
    + assert (preserves (grows (writesWithin (path :: paths)))
                (forEach (path :: paths)
                   (fun dockerfile =>
                      Node22.printInfo ("Checking Dockerfile: " ++ Node22.renderPath dockerfile) ;;
                      dockerfileContent <- Node22.readFileSync dockerfile ;;
                      if negb (String.eqb (Node22.updateDockerfile dockerfileContent)
                                 dockerfileContent)
                      then Node22.writeFileSync dockerfile
                             (Node22.updateDockerfile dockerfileContent) ;;
                           Node22.printSuccess
                             ("Updated Node.js image in " ++ Node22.renderPath dockerfile
                              ++ " to " ++ Node22.DOCKER_IMAGE_TAG)
                      else Node22.printInfo
                             ("No changes needed in " ++ Node22.renderPath dockerfile ++ "."))
                 ;; emit (EvQuestion "Please check the Dockerfiles to verify the updates. Have you done that? (yes/no): "))) as Hloop.
      { apply preserves_bind; [apply _ | | intros _; by apply grows_emit].
        apply (rewrite_loop_within (path :: paths)
                 (fun f => "Checking Dockerfile: " ++ Node22.renderPath f)
                 (fun f => "Updated Node.js image in " ++ Node22.renderPath f
                           ++ " to " ++ Node22.DOCKER_IMAGE_TAG)
                 (fun f => "No changes needed in " ++ Node22.renderPath f ++ ".")
                 Node22.updateDockerfile). }
      destruct (Hloop w) as [(t & Ht & Hwithin) _]. exists t. split; [exact Ht|].
      apply writesWithin_elem in Hwithin as [Hnone Hpaths]. split; [exact Hnone|].
      intros p text Hin. apply Hfound. by apply (Hpaths p text).
  - unfold Node22.updateNodeVersionInGitHubActions. unfold bind at 1.
    rewrite getYamlFilesInDir_run.
    destruct (Node22.readdirSync (entries (fs w)) Node22.GITHUB_ACTIONS_DIR)
      as [items|] eqn:Hdir.
    + cbv beta iota. set (workflowFiles := flat_map _ items).
      assert (forall p, p ∈ workflowFiles
                        -> found (Node22.isYaml env) items Node22.GITHUB_ACTIONS_DIR p)
        as Hfound by (intros p; apply search_elem).
      clearbody workflowFiles. destruct workflowFiles as [|path paths].
      * eexists [ _ ]. split; [reflexivity|]. split.
        -- intros data [=]%list_elem_of_singleton.
        -- intros p text [=]%list_elem_of_singleton.
      * destruct (rewrite_loop_within (path :: paths)
                    (fun f => "Checking workflow file: " ++ Node22.renderPath f)
                    (fun f => "Node.js version updated to " ++ Node22.NODE_VERSION ++ " in "
                              ++ Node22.renderPath f)
                    (fun f => "No 'node_version' change required in "
                              ++ Node22.renderPath f ++ ".")
                    Node22.updateWorkflow w) as [(t & Ht & Hwithin) _].
        exists t. split; [exact Ht|].
        apply writesWithin_elem in Hwithin as [Hnone Hpaths]. split; [exact Hnone|].
        intros p text Hin. exists items. split; [done|].
        apply Hfound. by apply (Hpaths p text).
    + exists []. rewrite app_nil_r.
      split; [done|]. split.
      * intros data Hin. by apply elem_of_nil in Hin.
      * intros p text Hin. by apply elem_of_nil in Hin.
Qed.
